(** * SteamBuzzer: the haptic report encoder and the driver loop of hbuzz.py

    A shallow embedding of [hbuzz.py] and the properties of its 64-byte
    haptic report, of the sender [send_haptic_pulse], of the locator
    [find_steam_deck_controller] and of the driver [main].

    The program talks to three things it does not define: the [struct]
    module, the [hid] module and [time.sleep].  [struct.pack] is a pure
    function and is modelled as one.  The behaviour of the device and of
    the clock is not fixed by the program: it is a parameter of every run
    (a [World]), and every call the program makes to them is recorded, in
    order, in a trace. *)

From Stdlib Require Import ZArith List String Ascii Bool Lia.
From Stdlib.Strings Require Import Byte.
Import ListNotations.

Open Scope string_scope.
Open Scope list_scope.
Open Scope Z_scope.

(** ** Python values and exceptions *)

Module Py.

(** The exception classes the program meets.  [OtherException] stands for
    any other subclass of [Exception] ([ValueError], ...);
    [KeyboardInterrupt] and [SystemExit] derive from [BaseException]
    only. *)
Inductive exn : Type :=
| ImportError (msg : string)
| OSError (msg : string)
| StructError (msg : string)
| OtherException (msg : string)
| KeyboardInterrupt
| SystemExit (code : Z).

(** [isinstance(e, Exception)] *)
Definition is_Exception (e : exn) : bool :=
  match e with
  | ImportError _ | OSError _ | StructError _ | OtherException _ => true
  | KeyboardInterrupt | SystemExit _ => false
  end.

Definition is_OSError (e : exn) : bool :=
  match e with OSError _ => true | _ => false end.

Definition is_ImportError (e : exn) : bool :=
  match e with ImportError _ => true | _ => false end.

Definition is_KeyboardInterrupt (e : exn) : bool :=
  match e with KeyboardInterrupt => true | _ => false end.

(** [str(e)], as an f-string prints it. *)
Definition str (e : exn) : string :=
  match e with
  | ImportError m | OSError m | StructError m | OtherException m => m
  | KeyboardInterrupt => ""
  | SystemExit _ => ""
  end.

(** The newline character of the string literals. *)
Definition nl : string := String (ascii_of_nat 10) EmptyString.

(** [s * n] on strings. *)
Fixpoint str_repeat (s : string) (n : nat) : string :=
  match n with
  | O => ""
  | S n' => (s ++ str_repeat s n')%string
  end.

(** [b * n] on bytes objects; a count that is not positive gives the
    empty bytes object. *)
Definition bytes_repeat (b : list byte) (n : Z) : list byte :=
  List.concat (repeat b (Z.to_nat n)).

(** [len(b)] *)
Definition len (b : list byte) : Z := Z.of_nat (List.length b).

End Py.

Import Py.

(** ** The [struct] module, for the format this program uses *)

Module Struct.

(** Format characters: [B] is an unsigned char, [H] an unsigned short. *)
Inductive code : Type := B | H.

Definition size (c : code) : nat :=
  match c with B => 1%nat | H => 2%nat end.

Definition max_value (c : code) : Z :=
  match c with B => 255 | H => 65535 end.

Definition range_error (c : code) : exn :=
  match c with
  | B => StructError "'B' format requires 0 <= number <= 255"
  | H => StructError "'H' format requires 0 <= number <= 65535"
  end.

(** The byte whose value is [z mod 256]. *)
Definition byte_of_Z (z : Z) : byte :=
  match Byte.of_N (Z.to_N (z mod 256)) with
  | Some b => b
  | None => x00
  end.

Definition Z_of_byte (b : byte) : Z := Z.of_N (Byte.to_N b).

(** The [n] low bytes of [v], least significant first. *)
Fixpoint le_bytes (n : nat) (v : Z) : list byte :=
  match n with
  | O => []
  | S n' => byte_of_Z v :: le_bytes n' (v / 256)
  end.

(** Packing one integer: a value outside the range of its format
    character raises [struct.error]. *)
Definition pack_int (c : code) (v : Z) : exn + list byte :=
  if (0 <=? v) && (v <=? max_value c)
  then inr (le_bytes (size c) v)
  else inl (range_error c).

(** The format characters after the byte-order mark. *)
Fixpoint parse_codes (s : string) : option (list code) :=
  match s with
  | EmptyString => Some []
  | String a rest =>
      match parse_codes rest with
      | None => None
      | Some cs =>
          if Ascii.eqb a "B"%char then Some (B :: cs)
          else if Ascii.eqb a "H"%char then Some (H :: cs)
          else None
      end
  end.

(** A format string starting with [<]: little-endian, standard sizes, no
    alignment padding.  The model covers this byte order and the two
    format characters of the program. *)
Definition parse_format (fmt : string) : option (list code) :=
  match fmt with
  | String a rest => if Ascii.eqb a "<"%char then parse_codes rest else None
  | EmptyString => None
  end.

Fixpoint pack_codes (cs : list code) (args : list Z) : exn + list byte :=
  match cs, args with
  | [], [] => inr []
  | c :: cs', v :: args' =>
      match pack_int c v with
      | inl e => inl e
      | inr bs =>
          match pack_codes cs' args' with
          | inl e => inl e
          | inr rest => inr (bs ++ rest)
          end
      end
  | _, _ => inl (StructError "pack: wrong number of items for packing")
  end.

(** [struct.pack(fmt, *args)] *)
Definition pack (fmt : string) (args : list Z) : exn + list byte :=
  match parse_format fmt with
  | Some cs => pack_codes cs args
  | None => inl (StructError "bad char in struct format")
  end.

(** Reading an unsigned short back, least significant byte first
    ([struct.unpack('<H', ...)]); the program never decodes, this is the
    decoder the round trip of the fields is stated with. *)
Definition unpack_H (bs : list byte) : option Z :=
  match bs with
  | [lo; hi] => Some (Z_of_byte lo + 256 * Z_of_byte hi)
  | _ => None
  end.

End Struct.

(** ** The report *)

Definition HAPTIC_CMD : Z := 0x8f.
Definition HAPTIC_SUBCMD : Z := 0x07.

(** The body of the [for] loop of [send_haptic_pulse] up to the write:
    pack the six fields, then pad to 64 bytes. *)
Definition build_message (pad_id amplitude period count : Z)
  : exn + list byte :=
  match Struct.pack "<BBBHHH"
          [HAPTIC_CMD; HAPTIC_SUBCMD; pad_id; amplitude; period; count] with
  | inl e => inl e
  | inr message =>
      inr (message ++ bytes_repeat [x00] (64 - len message))
  end.

(** The pad ids a selector stands for, in the order they are sent. *)
Definition pads_of (pad : string) : list Z :=
  if String.eqb pad "both" then [0x00; 0x01]
  else if String.eqb pad "left" then [0x01]
  else [0x00].

(** [b[i:j]] on a bytes object, for [0 <= i <= j]. *)
Definition slice (i j : nat) (b : list byte) : list byte :=
  firstn (j - i) (skipn i b).

(** ** The outside world and the trace of a run *)

(** A device handle, as [hid.device()] creates them: the [n]-th handle
    created in a run is number [n]. *)
Definition handle : Type := nat.

(** One entry of [hid.enumerate]'s result (the keys this program could
    read; it reads [interface_number]). *)
Record device_info : Type := mk_device_info {
  path : string;
  vendor_id : Z;
  product_id : Z;
  interface_number : Z
}.

(** What the program cannot decide: whether the [hid] module is installed,
    what the enumeration returns, and what each call to the device and to
    the clock raises ([None]: the call returns).  Writes and sleeps are
    numbered from 0 in the order the run makes them. *)
Record World : Type := mk_World {
  hid_installed : bool;
  enumerate_result : Z -> Z -> list device_info;
  open_outcome : option exn;
  write_outcome : nat -> option exn;
  sleep_outcome : nat -> option exn
}.

(** The calls a run makes, each with what it raised. *)
Inductive event : Type :=
| EvPrint (line : string)
| EvEnumerate (vid pid : Z)
| EvDevice (h : handle)
| EvOpen (h : handle) (vid pid : Z) (raised : option exn)
| EvWrite (h : handle) (data : list byte) (raised : option exn)
| EvSleep (secs : Z) (raised : option exn)
| EvClose (h : handle).

Definition trace : Type := list event.

(** The data of the writes of a trace, in order (attempted writes: a write
    that raised is one). *)
Fixpoint writes_of (tr : trace) : list (list byte) :=
  match tr with
  | [] => []
  | EvWrite _ data _ :: tr' => data :: writes_of tr'
  | _ :: tr' => writes_of tr'
  end.

Fixpoint count_sleeps (tr : trace) : nat :=
  match tr with
  | [] => O
  | EvSleep _ _ :: tr' => S (count_sleeps tr')
  | _ :: tr' => count_sleeps tr'
  end.

Fixpoint count_devices (tr : trace) : nat :=
  match tr with
  | [] => O
  | EvDevice _ :: tr' => S (count_devices tr')
  | _ :: tr' => count_devices tr'
  end.

(** The handles closed by a trace, in order. *)
Fixpoint closes_of (tr : trace) : list handle :=
  match tr with
  | [] => []
  | EvClose h :: tr' => h :: closes_of tr'
  | _ :: tr' => closes_of tr'
  end.

(** The open calls of a trace: handle, vendor id, product id. *)
Fixpoint opens_of (tr : trace) : list (handle * Z * Z) :=
  match tr with
  | [] => []
  | EvOpen h vid pid _ :: tr' => (h, vid, pid) :: opens_of tr'
  | _ :: tr' => opens_of tr'
  end.

(** The enumerations of a trace. *)
Fixpoint enumerates_of (tr : trace) : list (Z * Z) :=
  match tr with
  | [] => []
  | EvEnumerate vid pid :: tr' => (vid, pid) :: enumerates_of tr'
  | _ :: tr' => enumerates_of tr'
  end.

(** The lines printed by a trace. *)
Fixpoint prints_of (tr : trace) : list string :=
  match tr with
  | [] => []
  | EvPrint s :: tr' => s :: prints_of tr'
  | _ :: tr' => prints_of tr'
  end.

(** Whether handle [h] is open after the trace: its last successful open
    is not followed by a close of it. *)
Fixpoint is_open_from (h : handle) (now : bool) (tr : trace) : bool :=
  match tr with
  | [] => now
  | EvOpen h' _ _ None :: tr' =>
      is_open_from h (if Nat.eqb h h' then true else now) tr'
  | EvClose h' :: tr' =>
      is_open_from h (if Nat.eqb h h' then false else now) tr'
  | _ :: tr' => is_open_from h now tr'
  end.

Definition is_open (h : handle) (tr : trace) : bool := is_open_from h false tr.

(** ** Computations *)

(** How a computation ends: it returns, it raises, or it is still going
    when the step budget of the unbounded loop runs out. *)
Inductive outcome (A : Type) : Type :=
| Ret (a : A)
| Raise (e : exn)
| Running.

Arguments Ret {A} a.
Arguments Raise {A} e.
Arguments Running {A}.

(** A computation reads the world and extends the trace. *)
Definition M (A : Type) : Type := World -> trace -> trace * outcome A.

Definition ret {A} (a : A) : M A := fun _ tr => (tr, Ret a).

Definition raise {A} (e : exn) : M A := fun _ tr => (tr, Raise e).

Definition bind {A B} (m : M A) (k : A -> M B) : M B :=
  fun w tr =>
    match m w tr with
    | (tr', Ret a) => k a w tr'
    | (tr', Raise e) => (tr', Raise e)
    | (tr', Running) => (tr', Running)
    end.

Notation "x <- m ;; k" := (bind m (fun x => k))
  (at level 61, m at next level, right associativity).
Notation "m ;; k" := (bind m (fun _ => k))
  (at level 61, right associativity).

(** [try: body  except ...: ...]: [handlers e] is the first clause that
    matches [e], if one does.  A run that is still going is not an
    exception. *)
Definition try_except {A} (body : M A) (handlers : exn -> option (M A)) : M A :=
  fun w tr =>
    match body w tr with
    | (tr', Raise e) =>
        match handlers e with
        | Some handler => handler w tr'
        | None => (tr', Raise e)
        end
    | r => r
    end.

(** [try: body  finally: final]: [final] runs however [body] ends, and the
    way [body] ended stands unless [final] raises. *)
Definition try_finally {A} (body : M A) (final : M unit) : M A :=
  fun w tr =>
    match body w tr with
    | (tr', Running) => (tr', Running)
    | (tr', r) =>
        match final w tr' with
        | (tr'', Ret _) => (tr'', r)
        | (tr'', Raise e) => (tr'', Raise e)
        | (tr'', Running) => (tr'', Running)
        end
    end.

(** [for x in xs: body x] *)
Fixpoint for_each {X} (xs : list X) (body : X -> M unit) : M unit :=
  match xs with
  | [] => ret tt
  | x :: xs' => body x ;; for_each xs' body
  end.

(** [while True: body], with the loop's variables in [s]; [fuel] bounds the
    number of iterations a run is followed for.  The loop has no [break]:
    it ends by an exception or not at all. *)
Fixpoint while_true {S A} (fuel : nat) (body : S -> M S) (s : S) : M A :=
  match fuel with
  | O => fun _ tr => (tr, Running)
  | Datatypes.S fuel' =>
      fun w tr =>
        match body s w tr with
        | (tr', Ret s') => while_true fuel' body s' w tr'
        | (tr', Raise e) => (tr', Raise e)
        | (tr', Running) => (tr', Running)
        end
  end.

(** A pure result of the [struct] model, as a computation. *)
Definition lift {A} (r : exn + A) : M A :=
  match r with
  | inl e => raise e
  | inr a => ret a
  end.

(** *** The calls to the outside *)

Definition emit (e : event) : M unit := fun _ tr => (tr ++ [e], Ret tt).

Definition of_raised (r : option exn) : M unit :=
  match r with
  | None => ret tt
  | Some e => raise e
  end.

Definition print (line : string) : M unit := emit (EvPrint line).

(** [sys.exit(code)] *)
Definition sys_exit {A} (code : Z) : M A := raise (SystemExit code).

(** [import hid] *)
Definition import_hid : M unit :=
  fun w tr =>
    if hid_installed w then (tr, Ret tt)
    else (tr, Raise (ImportError "No module named 'hid'")).

(** [hid.enumerate(vid, pid)] *)
Definition hid_enumerate (vid pid : Z) : M (list device_info) :=
  fun w tr => (tr ++ [EvEnumerate vid pid], Ret (enumerate_result w vid pid)).

(** [hid.device()]: a new handle, not open. *)
Definition hid_device : M handle :=
  fun _ tr => let h := count_devices tr in (tr ++ [EvDevice h], Ret h).

(** [device.open(vid, pid)] *)
Definition device_open (device : handle) (vid pid : Z) : M unit :=
  fun w tr =>
    let r := open_outcome w in
    of_raised r w (tr ++ [EvOpen device vid pid r]).

(** [device.write(message)] *)
Definition device_write (device : handle) (message : list byte) : M unit :=
  fun w tr =>
    let r := write_outcome w (List.length (writes_of tr)) in
    of_raised r w (tr ++ [EvWrite device message r]).

(** [device.close()] *)
Definition device_close (device : handle) : M unit := emit (EvClose device).

(** [time.sleep(secs)] *)
Definition time_sleep (secs : Z) : M unit :=
  fun w tr =>
    let r := sleep_outcome w (count_sleeps tr) in
    of_raised r w (tr ++ [EvSleep secs r]).

(** ** The program *)

Definition VALVE_VENDOR_ID : Z := 0x28de.
Definition STEAM_DECK_PRODUCT_ID : Z := 0x1205.

(** The [for device in devices] loop of [find_steam_deck_controller]: the
    first entry on interface 2 ends it with a new handle. *)
Fixpoint find_haptic_interface (devices : list device_info) : M (option handle) :=
  match devices with
  | [] => ret None
  | device :: rest =>
      if interface_number device =? 2
      then (h <- hid_device ;; ret (Some h))
      else find_haptic_interface rest
  end.

Definition find_steam_deck_controller : M (option handle) :=
  try_except import_hid
    (fun e =>
       if is_ImportError e
       then Some (print "Error: hidapi library required. Install with: pip install hidapi" ;;
                  sys_exit 1)
       else None) ;;
  devices <- hid_enumerate VALVE_VENDOR_ID STEAM_DECK_PRODUCT_ID ;;
  find_haptic_interface devices.

Definition send_haptic_pulse (device : handle) (pad : string)
    (amplitude period count : Z) : M unit :=
  for_each (pads_of pad) (fun pad_id =>
    message <- lift (build_message pad_id amplitude period count) ;;
    try_except (device_write device message)
      (fun e =>
         if is_Exception e
         then Some (print ("Error sending haptic command: " ++ str e)%string)
         else None)).

(** One turn of the [while True] loop of [main]; [pulse_count] is the
    loop's counter. *)
Definition main_loop_body (device : handle) (pulse_count : Z) : M Z :=
  let pulse_count := pulse_count + 1 in
  send_haptic_pulse device "both" 0x8000 0x0032 4000 ;;
  time_sleep 2 ;;
  ret pulse_count.

Definition main (fuel : nat) : M unit :=
  print "Steam Deck Haptic Feedback Test" ;;
  print "Press Ctrl+C to exit" ;;
  print (str_repeat "-" 40) ;;
  try_except import_hid
    (fun e =>
       if is_ImportError e
       then Some (print (nl ++ "Please install hidapi:")%string ;;
                  print "  pip install hidapi" ;;
                  sys_exit 1)
       else None) ;;
  device <- hid_device ;;
  try_finally
    (try_except
       (device_open device VALVE_VENDOR_ID STEAM_DECK_PRODUCT_ID ;;
        print "Connected to Steam Deck controller" ;;
        print "" ;;
        while_true fuel (main_loop_body device) 0)
       (fun e =>
          if is_OSError e
          then Some (print (nl ++ "Error: Could not open Steam Deck controler")%string ;;
                     print ("Details: " ++ str e)%string ;;
                     print (nl ++ "Troubleshooting:")%string ;;
                     print "Make sure you're running on Steam Deck" ;;
                     print "You may need root permissions (try: sudo python3 script.py)" ;;
                     print "required library is hidapi" ;;
                     sys_exit 1)
          else if is_KeyboardInterrupt e
          then Some (print (nl ++ nl ++ "Exiting...")%string)
          else None))
    (device_close device).

(** The exit status of the process when [main()] ends the script: 0 when it
    returns, the code of a [SystemExit], 1 for any other exception that
    reaches the top level; none while the run is still going. *)
Definition exit_status (r : outcome unit) : option Z :=
  match r with
  | Ret _ => Some 0
  | Raise (SystemExit code) => Some code
  | Raise _ => Some 1
  | Running => None
  end.

(** The script, from an empty trace. *)
Definition run (fuel : nat) (w : World) : trace * outcome unit := main fuel w [].

(** A world in which nothing fails. *)
Definition quiet_world : World :=
  mk_World true (fun _ _ => []) None (fun _ => None) (fun _ => None).

(** ** The wire format, as the report's documentation lays it out *)

(** Whether [v] fits an unsigned 16-bit field. *)
Definition in_u16 (v : Z) : bool := (0 <=? v) && (v <=? 0xFFFF).

(** The 64 bytes of a report, field by field: command, subcommand, pad id,
    then amplitude, period and count least significant byte first, then
    55 zero bytes. *)
Definition wire_format (pad_id amplitude period count : Z) : list byte :=
  [x8f; x07; Struct.byte_of_Z pad_id;
   Struct.byte_of_Z amplitude; Struct.byte_of_Z (amplitude / 256);
   Struct.byte_of_Z period; Struct.byte_of_Z (period / 256);
   Struct.byte_of_Z count; Struct.byte_of_Z (count / 256)]
  ++ repeat x00 55.

(** ** What a guarded write leaves behind *)

(** The line a write leaves in the log: one when it raised an exception the
    sender catches, none otherwise. *)
Definition write_log (r : option exn) : list event :=
  match r with
  | Some e =>
      if is_Exception e
      then [EvPrint ("Error sending haptic command: " ++ str e)%string]
      else []
  | None => []
  end.

(** How the [try] around a write ends: only an exception outside
    [Exception] leaves it. *)
Definition write_end (r : option exn) : outcome unit :=
  match r with
  | Some e => if is_Exception e then Ret tt else Raise e
  | None => Ret tt
  end.

(** The write returned, or raised what the sender catches. *)
Definition write_caught (r : option exn) : bool :=
  match r with
  | Some e => is_Exception e
  | None => true
  end.

(** The reports one call writes: one per pad of the selector, cut after
    the first when that write is interrupted. *)
Definition sent_reports (w : World) (pad : string)
    (amplitude period count : Z) (tr : trace) : list (list byte) :=
  let ids := pads_of pad in
  map (fun pad_id => wire_format pad_id amplitude period count)
      (if write_caught (write_outcome w (List.length (writes_of tr)))
       then ids else firstn 1 ids).

(** ** The driver, turn by turn *)

(** The two reports [main] sends in each turn of its loop. *)
Definition main_report (pad_id : Z) : list byte :=
  wire_format pad_id 0x8000 0x0032 4000.

(** One write cycle: the right pad's report, then the left pad's. *)
Definition write_cycle : list (list byte) := [main_report 0; main_report 1].

(** The exception a call raised, for the events that are calls to the
    device or the clock. *)
Definition raised_by (e : event) : option exn :=
  match e with
  | EvOpen _ _ _ r | EvWrite _ _ r | EvSleep _ r => r
  | _ => None
  end.

(** Some call of the trace was interrupted by the user. *)
Definition interrupted (tr : trace) : bool :=
  existsb (fun e => match raised_by e with
                    | Some x => is_KeyboardInterrupt x
                    | None => false
                    end) tr.

(** How a call that raised [r] ends when nothing catches it. *)
Definition ends {A} (r : option exn) (a : A) : outcome A :=
  match r with
  | Some e => Raise e
  | None => Ret a
  end.

(** The computation ended with [KeyboardInterrupt]. *)
Definition ends_by_interrupt {A} (o : outcome A) : bool :=
  match o with
  | Raise e => is_KeyboardInterrupt e
  | _ => false
  end.

(** The events the loop of [main] makes: writes, sleeps and log lines. *)
Definition is_loop_event (e : event) : bool :=
  match e with
  | EvWrite _ _ _ | EvSleep _ _ | EvPrint _ => true
  | _ => false
  end.

(** The events of one turn of the loop in which both writes are caught,
    when [k] writes and [s] sleeps were made before it. *)
Definition turn_events (w : World) (device : handle) (k s : nat) : trace :=
  (EvWrite device (main_report 0) (write_outcome w k)
     :: write_log (write_outcome w k))
  ++ (EvWrite device (main_report 1) (write_outcome w (S k))
        :: write_log (write_outcome w (S k)))
  ++ [EvSleep 2 (sleep_outcome w s)].

(** The events of [n] such turns in a row. *)
Fixpoint turns_events (w : World) (device : handle) (k s n : nat) : trace :=
  match n with
  | O => []
  | S n' =>
      turn_events w device k s ++ turns_events w device (S (S k)) (S s) n'
  end.

(** The log lines of the writes numbered [k] to [k + n - 1]: one for each
    that raised an exception the sender catches. *)
Fixpoint error_lines (w : World) (k n : nat) : list string :=
  match n with
  | O => []
  | S n' => prints_of (write_log (write_outcome w k)) ++ error_lines w (S k) n'
  end.

(** What [main] prints before it imports [hid]. *)
Definition banner : trace :=
  [EvPrint "Steam Deck Haptic Feedback Test";
   EvPrint "Press Ctrl+C to exit";
   EvPrint "----------------------------------------"].

(** The trace of [main] when the device is open and the loop starts. *)
Definition connected : trace :=
  banner ++
  [EvDevice 0%nat;
   EvOpen 0%nat VALVE_VENDOR_ID STEAM_DECK_PRODUCT_ID None;
   EvPrint "Connected to Steam Deck controller";
   EvPrint ""].

(** What [main] prints when the open fails with [e]. *)
Definition open_failure_report (e : exn) : trace :=
  [EvPrint (nl ++ "Error: Could not open Steam Deck controler")%string;
   EvPrint ("Details: " ++ str e)%string;
   EvPrint (nl ++ "Troubleshooting:")%string;
   EvPrint "Make sure you're running on Steam Deck";
   EvPrint "You may need root permissions (try: sudo python3 script.py)";
   EvPrint "required library is hidapi"].

(** The [except] clauses and the [finally] clause of [main], applied to
    the way its [try] block ended. *)
Definition after_try (device : handle) (r : trace * outcome unit)
  : trace * outcome unit :=
  match r with
  | (tr, Running) => (tr, Running)
  | (tr, Ret a) => (tr ++ [EvClose device], Ret a)
  | (tr, Raise e) =>
      if is_OSError e
      then (tr ++ open_failure_report e ++ [EvClose device],
            Raise (SystemExit 1))
      else if is_KeyboardInterrupt e
      then (tr ++ [EvPrint (nl ++ nl ++ "Exiting...")%string; EvClose device],
            Ret tt)
      else (tr ++ [EvClose device], Raise e)
  end.

(** ** Some worlds *)

(** The [hid] module is not installed. *)
Definition no_hid_world : World :=
  mk_World false (fun _ _ => []) None (fun _ => None) (fun _ => None).

(** The device cannot be opened. *)
Definition open_fails_world : World :=
  mk_World true (fun _ _ => []) (Some (OSError "open failed"))
    (fun _ => None) (fun _ => None).

(** Every write fails with an I/O error. *)
Definition failing_writes_world : World :=
  mk_World true (fun _ _ => []) None
    (fun _ => Some (OSError "write error")) (fun _ => None).

(** The user interrupts the open of the device. *)
Definition interrupted_open_world : World :=
  mk_World true (fun _ _ => []) (Some KeyboardInterrupt)
    (fun _ => None) (fun _ => None).

(** The user interrupts the sleep numbered [n]. *)
Definition interrupt_world (n : nat) : World :=
  mk_World true (fun _ _ => []) None (fun _ => None)
    (fun i => if Nat.eqb i n then Some KeyboardInterrupt else None).

(** A controller with its three interfaces attached. *)
Definition deck_world : World :=
  mk_World true
    (fun vid pid =>
       [mk_device_info "/dev/hidraw0" vid pid 0;
        mk_device_info "/dev/hidraw1" vid pid 1;
        mk_device_info "/dev/hidraw2" vid pid 2])
    None (fun _ => None) (fun _ => None).

(** ** More views of a trace *)

(** The handles of the device events of a trace (created, opened, written
    to, closed), in order. *)
Fixpoint handles_of (tr : trace) : list handle :=
  match tr with
  | [] => []
  | EvDevice h :: tr' => h :: handles_of tr'
  | EvOpen h _ _ _ :: tr' => h :: handles_of tr'
  | EvWrite h _ _ :: tr' => h :: handles_of tr'
  | EvClose h :: tr' => h :: handles_of tr'
  | _ :: tr' => handles_of tr'
  end.

(** The lengths, in seconds, of the pauses of a trace. *)
Fixpoint sleeps_of (tr : trace) : list Z :=
  match tr with
  | [] => []
  | EvSleep secs _ :: tr' => secs :: sleeps_of tr'
  | _ :: tr' => sleeps_of tr'
  end.

(** An event the sender may make with the handle it was given: a write to
    that handle, or a log line. *)
Definition sender_event (device : handle) (e : event) : Prop :=
  match e with
  | EvWrite h _ _ => h = device
  | EvPrint _ => True
  | _ => False
  end.

(** An event a turn of the loop of [main] may make with its handle: a write
    to that handle, a pause of 2 seconds, or a log line. *)
Definition turn_event (device : handle) (e : event) : Prop :=
  match e with
  | EvWrite h _ _ => h = device
  | EvSleep secs _ => secs = 2
  | EvPrint _ => True
  | _ => False
  end.

(** An event [main] may make outside its loop with its handle: a line it
    prints, and the creation, the open and the close of that handle. *)
Definition edge_event (device : handle) (e : event) : Prop :=
  match e with
  | EvPrint _ => True
  | EvDevice h => h = device
  | EvOpen h _ _ _ => h = device
  | EvClose h => h = device
  | _ => False
  end.

(** Every write of the trace is made to a handle that is open at that
    point of the trace. *)
Definition writes_while_open (tr : trace) : Prop :=
  forall t1 h m r t2,
    tr = t1 ++ EvWrite h m r :: t2 -> is_open h t1 = true.

(** The padding of [send_haptic_pulse]:
    [message += b'\x00' * (64 - len(message))]. *)
Definition pad_to_64 (message : list byte) : list byte :=
  message ++ bytes_repeat [x00] (64 - len message).

(** The user interrupts the write numbered [k]. *)
Definition interrupt_write_world (k : nat) : World :=
  mk_World true (fun _ _ => []) None
    (fun i => if Nat.eqb i k then Some KeyboardInterrupt else None)
    (fun _ => None).

(** Two of the enumerated entries are on interface 2. *)
Definition two_haptic_world : World :=
  mk_World true
    (fun vid pid =>
       [mk_device_info "/dev/hidraw0" vid pid 0;
        mk_device_info "/dev/hidraw1" vid pid 2;
        mk_device_info "/dev/hidraw2" vid pid 2])
    None (fun _ => None) (fun _ => None).

(** The open of the device fails with an exception [main] has no clause
    for. *)
Definition open_value_error_world : World :=
  mk_World true (fun _ _ => []) (Some (OtherException "already open"))
    (fun _ => None) (fun _ => None).

(** * Properties *)

(** ** Bytes and 16-bit fields *)

Section Bytes.

Lemma Z_of_byte_of_Z (z : Z) :
  Struct.Z_of_byte (Struct.byte_of_Z z) = z mod 256.
Proof.
  unfold Struct.Z_of_byte, Struct.byte_of_Z.
  assert (Hr : 0 <= z mod 256 < 256) by (apply Z.mod_pos_bound; lia).
  destruct (Byte.of_N (Z.to_N (z mod 256))) as [b|] eqn:E.
  - apply Byte.to_of_N in E. rewrite E. apply Z2N.id. lia.
  - apply Byte.of_N_None_iff in E. lia.
Qed.

Lemma byte_of_Z_small (z : Z) (b : byte) :
  Struct.Z_of_byte b = z -> Struct.byte_of_Z z = b.
Proof.
  intros <-. unfold Struct.byte_of_Z, Struct.Z_of_byte.
  pose proof (Byte.to_N_bounded b) as Hb.
  rewrite Z.mod_small by lia.
  rewrite N2Z.id, Byte.of_to_N. reflexivity.
Qed.

Lemma in_u16_iff (v : Z) : in_u16 v = true <-> 0 <= v <= 0xFFFF.
Proof. unfold in_u16. rewrite andb_true_iff, !Z.leb_le. tauto. Qed.

Lemma unpack_H_le_bytes (v : Z) :
  0 <= v <= 0xFFFF ->
  Struct.unpack_H [Struct.byte_of_Z v; Struct.byte_of_Z (v / 256)] = Some v.
Proof.
  intros Hv. unfold Struct.unpack_H. rewrite !Z_of_byte_of_Z.
  assert (Hq : 0 <= v / 256 < 256).
  { split; [apply Z.div_pos; lia | apply Z.div_lt_upper_bound; lia]. }
  rewrite (Z.mod_small (v / 256)) by lia.
  f_equal. pose proof (Z_div_mod_eq_full v 256). lia.
Qed.

Lemma pack_int_ok (c : Struct.code) (v : Z) :
  0 <= v <= Struct.max_value c ->
  Struct.pack_int c v = inr (Struct.le_bytes (Struct.size c) v).
Proof.
  intros [H0 H1]. unfold Struct.pack_int.
  apply Z.leb_le in H0, H1. rewrite H0, H1. reflexivity.
Qed.

Lemma pack_int_H (v : Z) :
  Struct.pack_int Struct.H v =
  if in_u16 v then inr [Struct.byte_of_Z v; Struct.byte_of_Z (v / 256)]
  else inl (Struct.range_error Struct.H).
Proof. reflexivity. Qed.

Lemma pack_int_B (v : Z) :
  0 <= v <= 255 -> Struct.pack_int Struct.B v = inr [Struct.byte_of_Z v].
Proof. intros Hv. rewrite pack_int_ok by exact Hv. reflexivity. Qed.

Lemma parse_report_format :
  Struct.parse_format "<BBBHHH" =
  Some [Struct.B; Struct.B; Struct.B; Struct.H; Struct.H; Struct.H].
Proof. reflexivity. Qed.

End Bytes.

(** ** The encoder *)

Section Encoder.

Variables pad_id amplitude period count : Z.
Hypothesis pad_id_byte : 0 <= pad_id <= 255.

(** What [build_message] computes, for every value of the three
    parameters: the report when all three fit their field, and
    [struct.error] otherwise. *)
Lemma build_message_eq :
  build_message pad_id amplitude period count =
  if in_u16 amplitude && in_u16 period && in_u16 count
  then inr (wire_format pad_id amplitude period count)
  else inl (Struct.range_error Struct.H).
Proof.
  unfold build_message, Struct.pack. rewrite parse_report_format.
  unfold Struct.pack_codes.
  rewrite (pack_int_B HAPTIC_CMD) by (unfold HAPTIC_CMD; lia).
  rewrite (pack_int_B HAPTIC_SUBCMD) by (unfold HAPTIC_SUBCMD; lia).
  rewrite (pack_int_B pad_id) by exact pad_id_byte.
  rewrite !pack_int_H.
  destruct (in_u16 amplitude); [|reflexivity].
  destruct (in_u16 period); [|reflexivity].
  destruct (in_u16 count); [|reflexivity].
  reflexivity.
Qed.

Lemma wire_format_length :
  List.length (wire_format pad_id amplitude period count) = 64%nat.
Proof. reflexivity. Qed.

End Encoder.

(** ** Traces *)

Section Traces.

Local Ltac by_events t IH :=
  induction t as [|[] t IH]; simpl; rewrite ?IH; reflexivity.

Lemma writes_of_app (t1 t2 : trace) :
  writes_of (t1 ++ t2) = writes_of t1 ++ writes_of t2.
Proof. by_events t1 IH. Qed.

Lemma count_sleeps_app (t1 t2 : trace) :
  count_sleeps (t1 ++ t2) = (count_sleeps t1 + count_sleeps t2)%nat.
Proof. by_events t1 IH. Qed.

Lemma count_devices_app (t1 t2 : trace) :
  count_devices (t1 ++ t2) = (count_devices t1 + count_devices t2)%nat.
Proof. by_events t1 IH. Qed.

Lemma closes_of_app (t1 t2 : trace) :
  closes_of (t1 ++ t2) = closes_of t1 ++ closes_of t2.
Proof. by_events t1 IH. Qed.

Lemma opens_of_app (t1 t2 : trace) :
  opens_of (t1 ++ t2) = opens_of t1 ++ opens_of t2.
Proof. by_events t1 IH. Qed.

Lemma enumerates_of_app (t1 t2 : trace) :
  enumerates_of (t1 ++ t2) = enumerates_of t1 ++ enumerates_of t2.
Proof. by_events t1 IH. Qed.

Lemma prints_of_app (t1 t2 : trace) :
  prints_of (t1 ++ t2) = prints_of t1 ++ prints_of t2.
Proof. by_events t1 IH. Qed.

End Traces.

(** ** One guarded write *)

Section Sender.

Variable w : World.
Variable device : handle.
Variables amplitude period count : Z.

(** The body of the [for] loop of [send_haptic_pulse]. *)
Let body (pad_id : Z) : M unit :=
  message <- lift (build_message pad_id amplitude period count) ;;
  try_except (device_write device message)
    (fun e =>
       if is_Exception e
       then Some (print ("Error sending haptic command: " ++ str e)%string)
       else None).

Let report (pad_id : Z) : list byte :=
  wire_format pad_id amplitude period count.

Lemma send_haptic_pulse_for_each (pad : string) :
  send_haptic_pulse device pad amplitude period count =
  for_each (pads_of pad) body.
Proof. reflexivity. Qed.

Lemma for_each_cons {X} (x : X) (xs : list X) (f : X -> M unit) :
  for_each (x :: xs) f = (f x ;; for_each xs f).
Proof. reflexivity. Qed.

Lemma for_each_nil {X} (f : X -> M unit) : for_each [] f = ret tt.
Proof. reflexivity. Qed.

Lemma write_end_caught (r : option exn) :
  write_caught r = true -> write_end r = Ret tt.
Proof. destruct r as [e|]; simpl; [intros ->|]; reflexivity. Qed.

Lemma write_end_not_caught (r : option exn) :
  write_caught r = false -> exists e, r = Some e /\ write_end r = Raise e
                                     /\ write_log r = [].
Proof.
  destruct r as [e|]; simpl; [|discriminate].
  intros ->. exists e. repeat split.
Qed.

Lemma pads_of_cases (pad : string) :
  pads_of pad = [0; 1] \/ pads_of pad = [1] \/ pads_of pad = [0].
Proof.
  unfold pads_of.
  destruct (String.eqb pad "both"); [now left|].
  destruct (String.eqb pad "left"); [right; now left | right; now right].
Qed.

(** A value that does not fit its field: packing raises before anything
    is written. *)
Lemma body_out_of_range (pad_id : Z) (tr : trace) :
  0 <= pad_id <= 255 ->
  in_u16 amplitude && in_u16 period && in_u16 count = false ->
  body pad_id w tr = (tr, Raise (Struct.range_error Struct.H)).
Proof.
  intros Hid Hr. unfold body, bind.
  rewrite build_message_eq by exact Hid. rewrite Hr. reflexivity.
Qed.

Hypothesis fields_fit :
  in_u16 amplitude && in_u16 period && in_u16 count = true.

Lemma body_eq (pad_id : Z) (tr : trace) :
  0 <= pad_id <= 255 ->
  body pad_id w tr =
  let r := write_outcome w (List.length (writes_of tr)) in
  (tr ++ EvWrite device (report pad_id) r :: write_log r, write_end r).
Proof.
  intros Hid. unfold body, bind.
  rewrite build_message_eq by exact Hid. rewrite fields_fit.
  unfold lift, ret, try_except, device_write, of_raised, report. cbv zeta.
  destruct (write_outcome w (List.length (writes_of tr))) as [e|]; simpl.
  - unfold raise. destruct (is_Exception e); simpl.
    + unfold print, emit. rewrite <- app_assoc. reflexivity.
    + reflexivity.
  - unfold ret. reflexivity.
Qed.

(** A selector that stands for one pad. *)
Lemma send_one (pad : string) (pad_id : Z) (tr : trace) :
  pads_of pad = [pad_id] -> 0 <= pad_id <= 255 ->
  send_haptic_pulse device pad amplitude period count w tr =
  let r := write_outcome w (List.length (writes_of tr)) in
  (tr ++ EvWrite device (report pad_id) r :: write_log r, write_end r).
Proof.
  intros Hp Hid. rewrite send_haptic_pulse_for_each, Hp.
  rewrite for_each_cons, for_each_nil.
  unfold bind at 1. rewrite body_eq by exact Hid. cbv zeta.
  destruct (write_end (write_outcome w (List.length (writes_of tr))))
    as [[]| |]; reflexivity.
Qed.

(** The selector for both pads: the right pad's report, then the left
    pad's unless the first write was interrupted. *)
Lemma send_two (pad : string) (tr : trace) :
  pads_of pad = [0; 1] ->
  send_haptic_pulse device pad amplitude period count w tr =
  let k := List.length (writes_of tr) in
  let r0 := write_outcome w k in
  let r1 := write_outcome w (S k) in
  let tr0 := tr ++ EvWrite device (report 0) r0 :: write_log r0 in
  if write_caught r0
  then (tr0 ++ EvWrite device (report 1) r1 :: write_log r1, write_end r1)
  else (tr0, write_end r0).
Proof.
  intros Hp. rewrite send_haptic_pulse_for_each, Hp.
  rewrite !for_each_cons, for_each_nil.
  unfold bind at 1. rewrite body_eq by lia. cbv zeta.
  destruct (write_caught (write_outcome w (List.length (writes_of tr))))
    eqn:Hc.
  - rewrite (write_end_caught _ Hc).
    unfold bind at 1. rewrite body_eq by lia. cbv zeta.
    rewrite writes_of_app. simpl writes_of.
    assert (Hlog : forall r, writes_of (write_log r) = []).
    { intros [e|]; simpl; [destruct (is_Exception e)|]; reflexivity. }
    rewrite Hlog, length_app. simpl List.length.
    replace (List.length (writes_of tr) + 1)%nat
      with (S (List.length (writes_of tr))) by lia.
    destruct (write_end (write_outcome w (S (List.length (writes_of tr)))))
      as [[]| |]; reflexivity.
  - destruct (write_end_not_caught _ Hc) as (e & _ & -> & _). reflexivity.
Qed.

End Sender.

(** ** What one call of the sender writes *)

Section Sent.

Variable w : World.
Variable device : handle.
Variable pad : string.
Variables amplitude period count : Z.
Variable tr : trace.

Lemma fields_fit_iff :
  in_u16 amplitude && in_u16 period && in_u16 count = true <->
  0 <= amplitude <= 0xFFFF /\ 0 <= period <= 0xFFFF /\ 0 <= count <= 0xFFFF.
Proof. rewrite !andb_true_iff, !in_u16_iff. tauto. Qed.

Lemma writes_of_write_log (r : option exn) : writes_of (write_log r) = [].
Proof. destruct r as [e|]; simpl; [destruct (is_Exception e)|]; reflexivity. Qed.

Lemma writes_of_send :
  in_u16 amplitude && in_u16 period && in_u16 count = true ->
  writes_of (fst (send_haptic_pulse device pad amplitude period count w tr)) =
  writes_of tr ++ sent_reports w pad amplitude period count tr.
Proof.
  intros Hfit. unfold sent_reports.
  destruct (pads_of_cases pad) as [Hp|[Hp|Hp]].
  - rewrite (send_two w device _ _ _ Hfit pad tr Hp). cbv zeta. rewrite Hp.
    destruct (write_caught _); simpl fst;
      rewrite ?writes_of_app; simpl writes_of;
      rewrite ?writes_of_app, !writes_of_write_log; simpl;
      rewrite <- ?app_assoc; reflexivity.
  - rewrite (send_one w device _ _ _ Hfit pad 1 tr Hp) by lia. cbv zeta.
    rewrite Hp. simpl fst. rewrite writes_of_app. simpl writes_of.
    rewrite writes_of_write_log. destruct (write_caught _); reflexivity.
  - rewrite (send_one w device _ _ _ Hfit pad 0 tr Hp) by lia. cbv zeta.
    rewrite Hp. simpl fst. rewrite writes_of_app. simpl writes_of.
    rewrite writes_of_write_log. destruct (write_caught _); reflexivity.
Qed.

(** The sender itself raises nothing and returns when no write is
    interrupted. *)
Lemma send_returns :
  in_u16 amplitude && in_u16 period && in_u16 count = true ->
  (forall k, write_caught (write_outcome w k) = true) ->
  snd (send_haptic_pulse device pad amplitude period count w tr) = Ret tt.
Proof.
  intros Hfit Hc.
  destruct (pads_of_cases pad) as [Hp|[Hp|Hp]].
  - rewrite (send_two w device _ _ _ Hfit pad tr Hp). cbv zeta.
    rewrite Hc. simpl snd. apply write_end_caught, Hc.
  - rewrite (send_one w device _ _ _ Hfit pad 1 tr Hp) by lia.
    simpl snd. apply write_end_caught, Hc.
  - rewrite (send_one w device _ _ _ Hfit pad 0 tr Hp) by lia.
    simpl snd. apply write_end_caught, Hc.
Qed.

Lemma send_out_of_range :
  in_u16 amplitude && in_u16 period && in_u16 count = false ->
  send_haptic_pulse device pad amplitude period count w tr =
  (tr, Raise (StructError "'H' format requires 0 <= number <= 65535")).
Proof.
  intros Hr. rewrite send_haptic_pulse_for_each.
  destruct (pads_of_cases pad) as [Hp|[Hp|Hp]]; rewrite Hp;
    rewrite for_each_cons; unfold bind at 1;
    rewrite body_out_of_range by (lia || exact Hr); reflexivity.
Qed.

(** The fields of a report, read back. *)
Lemma wire_format_fields (pad_id : Z) :
  0 <= pad_id <= 255 ->
  0 <= amplitude <= 0xFFFF -> 0 <= period <= 0xFFFF -> 0 <= count <= 0xFFFF ->
  let message := wire_format pad_id amplitude period count in
  Struct.Z_of_byte (nth 2 message xff) = pad_id /\
  Struct.unpack_H (slice 3 5 message) = Some amplitude /\
  Struct.unpack_H (slice 5 7 message) = Some period /\
  Struct.unpack_H (slice 7 9 message) = Some count.
Proof.
  intros Hid Ha Hp Hc message. subst message.
  unfold wire_format, slice. simpl nth. simpl firstn.
  rewrite Z_of_byte_of_Z, Z.mod_small by lia.
  rewrite !unpack_H_le_bytes by assumption. repeat split.
Qed.

End Sent.

Section SentReports.

Variable w : World.
Variable pad : string.
Variables amplitude period count : Z.
Variable tr : trace.

Lemma pads_of_in (pad_id : Z) :
  In pad_id (pads_of pad) -> pad_id = 0 \/ pad_id = 1.
Proof.
  destruct (pads_of_cases pad) as [Hp|[Hp|Hp]]; rewrite Hp; simpl; intuition.
Qed.

Lemma pads_of_other :
  pad <> "both" -> pad <> "left" -> pads_of pad = [0].
Proof.
  intros Hb Hl. unfold pads_of.
  apply String.eqb_neq in Hb, Hl. rewrite Hb, Hl. reflexivity.
Qed.

Lemma sent_reports_in (message : list byte) :
  In message (sent_reports w pad amplitude period count tr) ->
  exists pad_id, In pad_id (pads_of pad) /\
                 message = wire_format pad_id amplitude period count.
Proof.
  unfold sent_reports. cbv zeta. intros Hin. apply in_map_iff in Hin.
  destruct Hin as (pad_id & <- & Hin). exists pad_id. split; [|reflexivity].
  destruct (write_caught _); [exact Hin|].
  destruct (pads_of pad) as [|x xs]; simpl in *; tauto.
Qed.

Lemma sent_reports_nonempty :
  sent_reports w pad amplitude period count tr <> [].
Proof.
  unfold sent_reports. cbv zeta.
  destruct (pads_of_cases pad) as [Hp|[Hp|Hp]]; rewrite Hp;
    destruct (write_caught _); discriminate.
Qed.

Lemma sent_reports_single (pad_id : Z) :
  pads_of pad = [pad_id] ->
  sent_reports w pad amplitude period count tr =
  [wire_format pad_id amplitude period count].
Proof.
  intros Hp. unfold sent_reports. rewrite Hp.
  destruct (write_caught _); reflexivity.
Qed.

Lemma sent_reports_both :
  pads_of pad = [0; 1] ->
  write_caught (write_outcome w (List.length (writes_of tr))) = true ->
  sent_reports w pad amplitude period count tr =
  [wire_format 0 amplitude period count;
   wire_format 1 amplitude period count].
Proof. intros Hp Hc. unfold sent_reports. rewrite Hp, Hc. reflexivity. Qed.

End SentReports.

(** ** The driver loop *)

Section Loop.

Variable w : World.
Variable device : handle.

Lemma main_loop_body_eq (pulse_count : Z) (tr : trace) :
  main_loop_body device pulse_count w tr =
  let k := List.length (writes_of tr) in
  let r0 := write_outcome w k in
  let r1 := write_outcome w (S k) in
  let rs := sleep_outcome w (count_sleeps tr) in
  let tr0 := tr ++ EvWrite device (main_report 0) r0 :: write_log r0 in
  let tr1 := tr0 ++ EvWrite device (main_report 1) r1 :: write_log r1 in
  if write_caught r0
  then if write_caught r1
       then (tr1 ++ [EvSleep 2 rs], ends rs (pulse_count + 1))
       else (tr1, ends r1 (pulse_count + 1))
  else (tr0, ends r0 (pulse_count + 1)).
Proof.
  unfold main_loop_body. cbv zeta. unfold bind at 1.
  rewrite (send_two w device 0x8000 0x0032 4000 eq_refl "both" tr eq_refl).
  cbv zeta. fold (main_report 0) (main_report 1).
  destruct (write_caught (write_outcome w (List.length (writes_of tr))))
    eqn:H0.
  - destruct (write_caught (write_outcome w (S (List.length (writes_of tr)))))
      eqn:H1.
    + rewrite (write_end_caught _ H1).
      unfold bind, time_sleep, of_raised. cbv zeta.
      rewrite !count_sleeps_app.
      assert (Hlog : forall m r,
                 count_sleeps (EvWrite device m r :: write_log r) = 0%nat).
      { intros m [e|]; simpl; [destruct (is_Exception e)|]; reflexivity. }
      rewrite !Hlog, !Nat.add_0_r.
      destruct (sleep_outcome w (count_sleeps tr)); reflexivity.
    + destruct (write_end_not_caught _ H1) as (e & -> & -> & _).
      reflexivity.
  - destruct (write_end_not_caught _ H0) as (e & -> & -> & _).
    reflexivity.
Qed.

Lemma while_true_step {S A} (fuel : nat) (body : S -> M S) (s : S) (tr : trace) :
  @while_true S A (Datatypes.S fuel) body s w tr =
  match body s w tr with
  | (tr', Ret s') => while_true fuel body s' w tr'
  | (tr', Raise e) => (tr', Raise e)
  | (tr', Running) => (tr', Running)
  end.
Proof. reflexivity. Qed.

(** *** What the events of a turn project to *)

Lemma caught_not_interrupt (r : option exn) :
  write_caught r = true ->
  match r with Some x => is_KeyboardInterrupt x | None => false end = false.
Proof. destruct r as [[]|]; simpl; congruence. Qed.

Lemma write_log_loop_events (r : option exn) :
  forallb is_loop_event (write_log r) = true.
Proof. destruct r as [e|]; simpl; [destruct (is_Exception e)|]; reflexivity. Qed.

Lemma write_log_not_interrupted (r : option exn) :
  interrupted (write_log r) = false.
Proof. destruct r as [e|]; simpl; [destruct (is_Exception e)|]; reflexivity. Qed.

Lemma count_sleeps_write_log (r : option exn) :
  count_sleeps (write_log r) = 0%nat.
Proof. destruct r as [e|]; simpl; [destruct (is_Exception e)|]; reflexivity. Qed.

Lemma writes_of_turn (k s : nat) :
  writes_of (turn_events w device k s) = write_cycle.
Proof.
  unfold turn_events. rewrite !writes_of_app. simpl writes_of.
  rewrite !writes_of_write_log. reflexivity.
Qed.

Lemma count_sleeps_turn (k s : nat) :
  count_sleeps (turn_events w device k s) = 1%nat.
Proof.
  unfold turn_events. rewrite !count_sleeps_app. simpl count_sleeps.
  rewrite !count_sleeps_write_log. reflexivity.
Qed.

Lemma prints_of_turn (k s : nat) :
  prints_of (turn_events w device k s) = error_lines w k 2.
Proof.
  unfold turn_events. rewrite !prints_of_app. simpl.
  rewrite !app_nil_r. reflexivity.
Qed.

Lemma loop_events_turn (k s : nat) :
  forallb is_loop_event (turn_events w device k s) = true.
Proof.
  unfold turn_events. rewrite !forallb_app. simpl.
  rewrite !write_log_loop_events. reflexivity.
Qed.

Lemma error_lines_app (k n m : nat) :
  error_lines w k (n + m) = error_lines w k n ++ error_lines w (k + n) m.
Proof.
  revert k. induction n as [|n IH]; intros k; simpl.
  - rewrite Nat.add_0_r. reflexivity.
  - rewrite IH, app_assoc.
    replace (k + S n)%nat with (S k + n)%nat by lia. reflexivity.
Qed.

Lemma turns_events_S (k s n : nat) :
  turns_events w device k s (S n) =
  turn_events w device k s ++ turns_events w device (S (S k)) (S s) n.
Proof. reflexivity. Qed.

Lemma writes_of_turns (k s n : nat) :
  writes_of (turns_events w device k s n) = List.concat (repeat write_cycle n).
Proof.
  revert k s. induction n as [|n IH]; intros k s; [reflexivity|].
  rewrite turns_events_S, writes_of_app, writes_of_turn, IH. reflexivity.
Qed.

Lemma count_sleeps_turns (k s n : nat) :
  count_sleeps (turns_events w device k s n) = n.
Proof.
  revert k s. induction n as [|n IH]; intros k s; [reflexivity|].
  rewrite turns_events_S, count_sleeps_app, count_sleeps_turn, IH.
  reflexivity.
Qed.

Lemma prints_of_turns (k s n : nat) :
  prints_of (turns_events w device k s n) = error_lines w k (2 * n).
Proof.
  revert k s. induction n as [|n IH]; intros k s; [reflexivity|].
  rewrite turns_events_S, prints_of_app, prints_of_turn, IH.
  replace (2 * S n)%nat with (2 + 2 * n)%nat by lia.
  rewrite error_lines_app.
  replace (k + 2)%nat with (S (S k)) by lia. reflexivity.
Qed.

Lemma loop_events_turns (k s n : nat) :
  forallb is_loop_event (turns_events w device k s n) = true.
Proof.
  revert k s. induction n as [|n IH]; intros k s; [reflexivity|].
  rewrite turns_events_S, forallb_app, loop_events_turn, IH. reflexivity.
Qed.

Lemma length_cycles (n : nat) :
  List.length (List.concat (repeat write_cycle n)) = (2 * n)%nat.
Proof.
  induction n as [|n IH]; [reflexivity|].
  simpl. rewrite IH. lia.
Qed.

(** *** Turns in which no call is interrupted *)

(** [n] turns whose writes are all caught and whose sleeps all return
    are [n] turns of the loop: it goes on from the trace they leave. *)
Lemma loop_turns {A} (n : nat) :
  forall (m : nat) (pulse_count : Z) (tr : trace),
    (forall i, (i < 2 * n)%nat ->
       write_caught (write_outcome w (List.length (writes_of tr) + i)) = true) ->
    (forall i, (i < n)%nat ->
       sleep_outcome w (count_sleeps tr + i) = None) ->
    @while_true Z A (n + m) (main_loop_body device) pulse_count w tr =
    while_true m (main_loop_body device) (pulse_count + Z.of_nat n) w
      (tr ++ turns_events w device (List.length (writes_of tr))
               (count_sleeps tr) n).
Proof.
  induction n as [|n IH]; intros m pulse_count tr Hw Hs.
  - simpl. rewrite app_nil_r, Z.add_0_r. reflexivity.
  - change (S n + m)%nat with (S (n + m)).
    rewrite while_true_step, main_loop_body_eq. cbv zeta.
    pose proof (Hw 0%nat ltac:(lia)) as H0. rewrite Nat.add_0_r in H0.
    pose proof (Hw 1%nat ltac:(lia)) as H1. rewrite Nat.add_1_r in H1.
    pose proof (Hs 0%nat ltac:(lia)) as H2. rewrite Nat.add_0_r in H2.
    rewrite H0, H1, H2. simpl ends.
    set (k := List.length (writes_of tr)) in *.
    set (s := count_sleeps tr) in *.
    assert (Htr : (tr ++ EvWrite device (main_report 0) (write_outcome w k)
                      :: write_log (write_outcome w k))
                  ++ EvWrite device (main_report 1) (write_outcome w (S k))
                      :: write_log (write_outcome w (S k))
                  = tr ++ (EvWrite device (main_report 0) (write_outcome w k)
                             :: write_log (write_outcome w k))
                       ++ (EvWrite device (main_report 1)
                             (write_outcome w (S k))
                             :: write_log (write_outcome w (S k)))).
    { rewrite <- app_assoc. reflexivity. }
    rewrite Htr. clear Htr.
    replace ((tr ++ (EvWrite device (main_report 0) (write_outcome w k)
                       :: write_log (write_outcome w k))
                 ++ (EvWrite device (main_report 1) (write_outcome w (S k))
                       :: write_log (write_outcome w (S k))))
             ++ [EvSleep 2 None])
      with (tr ++ turn_events w device k s).
    2:{ unfold turn_events. rewrite H2, <- !app_assoc. reflexivity. }
    rewrite IH.
    + rewrite writes_of_app, writes_of_turn, length_app, count_sleeps_app,
        count_sleeps_turn.
      fold k s. simpl List.length.
      replace (k + 2)%nat with (S (S k)) by lia.
      replace (s + 1)%nat with (S s) by lia.
      rewrite turns_events_S, <- app_assoc.
      replace (pulse_count + 1 + Z.of_nat n)
        with (pulse_count + Z.of_nat (S n)) by lia.
      reflexivity.
    + intros i Hi. rewrite writes_of_app, writes_of_turn, length_app.
      fold k. simpl List.length.
      replace (k + 2 + i)%nat with (k + (2 + i))%nat by lia.
      apply Hw. lia.
    + intros i Hi. rewrite count_sleeps_app, count_sleeps_turn. fold s.
      replace (s + 1 + i)%nat with (s + (1 + i))%nat by lia.
      apply Hs. lia.
Qed.

Lemma turns_events_snoc (n : nat) :
  forall k s,
    turns_events w device k s (S n) =
    turns_events w device k s n
    ++ turn_events w device (k + 2 * n) (s + n).
Proof.
  induction n as [|n IH]; intros k s.
  - simpl. rewrite app_nil_r, !Nat.add_0_r. reflexivity.
  - rewrite turns_events_S, IH, turns_events_S, <- app_assoc.
    replace (S (S k) + 2 * n)%nat with (k + 2 * S n)%nat by lia.
    replace (S s + n)%nat with (s + S n)%nat by lia.
    reflexivity.
Qed.

(** The user's interrupt arrives in the pause of turn [n + 1], after [n]
    turns without one: the loop ends there with [KeyboardInterrupt],
    having made [n + 1] turns' worth of events. *)
Lemma loop_interrupted_in_pause (n m : nat) (pulse_count : Z) (tr : trace) :
  (forall i, (i < 2 * S n)%nat ->
     write_caught (write_outcome w (List.length (writes_of tr) + i)) = true) ->
  (forall i, (i < n)%nat -> sleep_outcome w (count_sleeps tr + i) = None) ->
  sleep_outcome w (count_sleeps tr + n) = Some KeyboardInterrupt ->
  @while_true Z unit (n + S m) (main_loop_body device) pulse_count w tr =
  (tr ++ turns_events w device (List.length (writes_of tr))
           (count_sleeps tr) (S n),
   Raise KeyboardInterrupt).
Proof.
  intros Hw Hs Hi.
  rewrite loop_turns by (intros i Hlt; (apply Hw || apply Hs); lia).
  rewrite while_true_step, main_loop_body_eq. cbv zeta.
  rewrite writes_of_app, writes_of_turns, length_app, length_cycles,
    count_sleeps_app, count_sleeps_turns.
  set (k := List.length (writes_of tr)) in *.
  set (s := count_sleeps tr) in *.
  pose proof (Hw (2 * n)%nat ltac:(lia)) as H0.
  pose proof (Hw (S (2 * n)) ltac:(lia)) as H1.
  replace (k + S (2 * n))%nat with (S (k + 2 * n)) in H1 by lia.
  rewrite H0, H1, Hi. simpl ends.
  rewrite turns_events_snoc. unfold turn_events. rewrite Hi.
  rewrite <- !app_assoc. reflexivity.
Qed.

(** *** Any turn, any world *)

Lemma interrupted_app (t1 t2 : trace) :
  interrupted (t1 ++ t2) = interrupted t1 || interrupted t2.
Proof. apply existsb_app. Qed.

Lemma interrupted_write (m : list byte) (r : option exn) :
  interrupted (EvWrite device m r :: write_log r) =
  match r with Some x => is_KeyboardInterrupt x | None => false end.
Proof.
  change (EvWrite device m r :: write_log r)
    with ([EvWrite device m r] ++ write_log r).
  rewrite interrupted_app, write_log_not_interrupted, orb_false_r.
  unfold interrupted. simpl. apply orb_false_r.
Qed.

Lemma loop_events_write (m : list byte) (r : option exn) :
  forallb is_loop_event (EvWrite device m r :: write_log r) = true.
Proof. simpl. apply write_log_loop_events. Qed.

(** A turn only adds writes, sleeps and log lines; one of its calls was
    interrupted exactly when it ends with [KeyboardInterrupt]. *)
Lemma body_extends (pulse_count : Z) (tr : trace) :
  exists ext,
    fst (main_loop_body device pulse_count w tr) = tr ++ ext /\
    forallb is_loop_event ext = true /\
    interrupted ext =
    ends_by_interrupt (snd (main_loop_body device pulse_count w tr)) /\
    snd (main_loop_body device pulse_count w tr) <> Running.
Proof.
  rewrite main_loop_body_eq. cbv zeta.
  set (r0 := write_outcome w (List.length (writes_of tr))).
  set (r1 := write_outcome w (S (List.length (writes_of tr)))).
  set (rs := sleep_outcome w (count_sleeps tr)).
  destruct (write_caught r0) eqn:H0; [destruct (write_caught r1) eqn:H1|].
  - exists ((EvWrite device (main_report 0) r0 :: write_log r0)
            ++ (EvWrite device (main_report 1) r1 :: write_log r1)
            ++ [EvSleep 2 rs]).
    simpl fst. simpl snd. split; [rewrite <- !app_assoc; reflexivity|].
    split; [rewrite !forallb_app, !loop_events_write; reflexivity|].
    split.
    + rewrite !interrupted_app, !interrupted_write.
      rewrite (caught_not_interrupt _ H0), (caught_not_interrupt _ H1).
      destruct rs as [e|]; simpl; [apply orb_false_r | reflexivity].
    + destruct rs; discriminate.
  - exists ((EvWrite device (main_report 0) r0 :: write_log r0)
            ++ (EvWrite device (main_report 1) r1 :: write_log r1)).
    simpl fst. simpl snd. split; [rewrite <- !app_assoc; reflexivity|].
    split; [rewrite !forallb_app, !loop_events_write; reflexivity|].
    destruct (write_end_not_caught _ H1) as (e & He & _ & _).
    split.
    + rewrite !interrupted_app, !interrupted_write.
      rewrite (caught_not_interrupt _ H0), He. reflexivity.
    + rewrite He. discriminate.
  - exists (EvWrite device (main_report 0) r0 :: write_log r0).
    simpl fst. simpl snd. split; [reflexivity|].
    split; [apply loop_events_write|].
    destruct (write_end_not_caught _ H0) as (e & He & _ & _).
    split.
    + rewrite interrupted_write, He. reflexivity.
    + rewrite He. discriminate.
Qed.

(** The loop only adds writes, sleeps and log lines, never returns, and
    one of its calls was interrupted exactly when it ends with
    [KeyboardInterrupt]. *)
Lemma loop_extends (fuel : nat) :
  forall (pulse_count : Z) (tr : trace),
  exists ext,
    fst (@while_true Z unit fuel (main_loop_body device) pulse_count w tr)
    = tr ++ ext /\
    forallb is_loop_event ext = true /\
    interrupted ext =
    ends_by_interrupt
      (snd (@while_true Z unit fuel (main_loop_body device) pulse_count w tr)) /\
    forall a,
      snd (@while_true Z unit fuel (main_loop_body device) pulse_count w tr)
      <> Ret a.
Proof.
  induction fuel as [|fuel IH]; intros pulse_count tr.
  - exists []. simpl. rewrite app_nil_r. repeat split. discriminate.
  - rewrite while_true_step.
    destruct (body_extends pulse_count tr) as (ext & He & Hl & Hi & Hr).
    destruct (main_loop_body device pulse_count w tr) as [tr' [pc'|e|]];
      simpl in He, Hi, Hr; subst tr'.
    + destruct (IH pc' (tr ++ ext)) as (ext' & He' & Hl' & Hi' & Hr').
      exists (ext ++ ext'). rewrite He', app_assoc.
      split; [reflexivity|]. split; [rewrite forallb_app, Hl, Hl'; reflexivity|].
      split; [rewrite interrupted_app, Hi, Hi'; reflexivity | exact Hr'].
    + exists ext. simpl. repeat split; try assumption. discriminate.
    + contradiction.
Qed.

End Loop.

(** ** The script from start to end *)

Section Script.

Variable w : World.
Variable fuel : nat.

(** *** What the loop's events leave untouched *)

Lemma is_open_from_app (h : handle) (now : bool) (t1 t2 : trace) :
  is_open_from h now (t1 ++ t2) = is_open_from h (is_open_from h now t1) t2.
Proof.
  revert now. induction t1 as [|e t1 IH]; intros now; [reflexivity|].
  destruct e as [| | |h' vid pid [x|]| | |]; simpl; apply IH.
Qed.

Lemma loop_events_frame (ext : trace) :
  forallb is_loop_event ext = true ->
  closes_of ext = [] /\ opens_of ext = [] /\ enumerates_of ext = [] /\
  count_devices ext = 0%nat /\ forall h now, is_open_from h now ext = now.
Proof.
  induction ext as [|e ext IH]; [repeat split|].
  destruct e; simpl; try discriminate; exact IH.
Qed.

Lemma connected_facts :
  writes_of connected = [] /\ count_sleeps connected = 0%nat /\
  closes_of connected = [] /\ interrupted connected = false /\
  opens_of connected = [(0%nat, VALVE_VENDOR_ID, STEAM_DECK_PRODUCT_ID)] /\
  enumerates_of connected = [] /\ is_open 0%nat connected = true.
Proof. repeat split. Qed.

Lemma run_without_hid :
  hid_installed w = false ->
  run fuel w =
  (banner ++ [EvPrint (nl ++ "Please install hidapi:")%string;
              EvPrint "  pip install hidapi"],
   Raise (SystemExit 1)).
Proof.
  intros Hh. unfold run, main.
  unfold bind, print, emit, try_except, import_hid. rewrite Hh. reflexivity.
Qed.

Lemma run_open_raised (e : exn) :
  hid_installed w = true -> open_outcome w = Some e ->
  run fuel w =
  after_try 0%nat
    (banner ++ [EvDevice 0%nat;
                EvOpen 0%nat VALVE_VENDOR_ID STEAM_DECK_PRODUCT_ID (Some e)],
     Raise e).
Proof.
  intros Hh Ho. unfold run, main.
  unfold bind, print, emit, try_except, try_finally, import_hid, hid_device,
    device_open, of_raised.
  rewrite Hh. cbv zeta. simpl app. simpl count_devices. rewrite Ho.
  unfold after_try, raise, sys_exit, raise, device_close, emit.
  destruct e; reflexivity.
Qed.

Lemma run_open_ok :
  hid_installed w = true -> open_outcome w = None ->
  run fuel w =
  after_try 0%nat (while_true fuel (main_loop_body 0%nat) 0 w connected).
Proof.
  intros Hh Ho. unfold run, main.
  unfold bind, print, emit, try_except, try_finally, import_hid, hid_device,
    device_open, of_raised, ret, device_close, emit.
  rewrite Hh. cbv zeta. cbn [count_devices app]. rewrite Ho. cbn [app].
  change ([EvPrint "Steam Deck Haptic Feedback Test";
           EvPrint "Press Ctrl+C to exit";
           EvPrint (str_repeat "-" 40);
           EvDevice 0%nat;
           EvOpen 0%nat VALVE_VENDOR_ID STEAM_DECK_PRODUCT_ID None;
           EvPrint "Connected to Steam Deck controller";
           EvPrint ""]) with connected.
  destruct (while_true fuel (main_loop_body 0%nat) 0 w connected)
    as [tr [[]|e|]]; try reflexivity.
  unfold after_try, open_failure_report, sys_exit, raise.
  destruct (is_OSError e); [rewrite <- !app_assoc; reflexivity|].
  destruct (is_KeyboardInterrupt e); [rewrite <- !app_assoc|]; reflexivity.
Qed.

(** *** The except and finally clauses *)

(** The clauses of [main] add log lines and one close of the handle,
    unless the run is still going. *)
Lemma after_try_trace (device : handle) (tr : trace) (o : outcome unit) :
  exists lines,
    fst (after_try device (tr, o)) =
    tr ++ map EvPrint lines
       ++ match o with Running => [] | _ => [EvClose device] end.
Proof.
  destruct o as [a|e|]; simpl.
  - exists []. reflexivity.
  - destruct (is_OSError e); [|destruct (is_KeyboardInterrupt e)].
    + eexists [_; _; _; _; _; _]. reflexivity.
    + eexists [_]. reflexivity.
    + exists []. reflexivity.
  - exists []. simpl. rewrite app_nil_r. reflexivity.
Qed.

Lemma after_try_end (device : handle) (tr : trace) (o : outcome unit) :
  snd (after_try device (tr, o)) =
  match o with
  | Raise e =>
      if is_OSError e then Raise (SystemExit 1)
      else if is_KeyboardInterrupt e then Ret tt
      else Raise e
  | _ => o
  end.
Proof.
  destruct o as [a|e|]; simpl; try reflexivity.
  destruct (is_OSError e); [|destruct (is_KeyboardInterrupt e)]; reflexivity.
Qed.

Lemma lines_frame (lines : list string) :
  writes_of (map EvPrint lines) = [] /\ closes_of (map EvPrint lines) = [] /\
  opens_of (map EvPrint lines) = [] /\ enumerates_of (map EvPrint lines) = [] /\
  count_sleeps (map EvPrint lines) = 0%nat /\
  interrupted (map EvPrint lines) = false /\
  forall h now, is_open_from h now (map EvPrint lines) = now.
Proof. induction lines as [|l lines IH]; [repeat split | exact IH]. Qed.

(** *** The try block of [main] *)

(** With [hid] installed the run is the try block of [main], then its
    clauses; the block never returns, it closes nothing, it opens the
    one handle by vendor and product id, and one of its calls was
    interrupted exactly when it ends with [KeyboardInterrupt]. *)
Lemma try_block :
  hid_installed w = true ->
  exists tr o,
    run fuel w = after_try 0%nat (tr, o) /\
    (forall a, o <> Ret a) /\
    interrupted tr = ends_by_interrupt o /\
    closes_of tr = [] /\
    enumerates_of tr = [] /\
    opens_of tr = [(0%nat, VALVE_VENDOR_ID, STEAM_DECK_PRODUCT_ID)] /\
    (open_outcome w = None -> is_open 0%nat tr = true) /\
    (forall e, open_outcome w = Some e -> writes_of tr = [] /\ o = Raise e).
Proof.
  intros Hh. destruct (open_outcome w) as [e|] eqn:Ho.
  - eexists _, _. split; [apply (run_open_raised e Hh Ho)|].
    split; [discriminate|]. split; [destruct e; reflexivity|].
    repeat split; try reflexivity; try discriminate.
    congruence.
  - rewrite (run_open_ok Hh Ho).
    destruct (loop_extends w 0%nat fuel 0 connected)
      as (ext & He & Hl & Hi & Hr).
    destruct (while_true fuel (main_loop_body 0%nat) 0 w connected)
      as [tr o]. simpl in He, Hi, Hr. subst tr.
    destruct (loop_events_frame ext Hl) as (Hc & Hop & Hen & _ & Hio).
    exists (connected ++ ext), o. split; [reflexivity|].
    split; [exact Hr|].
    split; [rewrite interrupted_app, Hi; reflexivity|].
    split; [rewrite closes_of_app, Hc; reflexivity|].
    split; [rewrite enumerates_of_app, Hen; reflexivity|].
    split; [rewrite opens_of_app, Hop; reflexivity|].
    split; [|discriminate].
    intros _. unfold is_open. rewrite is_open_from_app, Hio. reflexivity.
Qed.

End Script.

(** ** Two kinds of run *)

Section Scenarios.

Variable w : World.
Hypothesis hid_there : hid_installed w = true.
Hypothesis open_ok : open_outcome w = None.

(** No write is interrupted and no sleep raises: after any number of
    turns the loop is still going. *)
Lemma run_uninterrupted (fuel : nat) :
  (forall k, write_caught (write_outcome w k) = true) ->
  (forall i, sleep_outcome w i = None) ->
  run fuel w = (connected ++ turns_events w 0%nat 0 0 fuel, Running).
Proof.
  intros Hw Hs. rewrite (run_open_ok w fuel hid_there open_ok).
  replace fuel with (fuel + 0)%nat at 1 by lia.
  rewrite loop_turns by (intros; (apply Hw || apply Hs)).
  reflexivity.
Qed.

(** The user's interrupt arrives in the pause of turn [n + 1]. *)
Lemma run_interrupted_in_pause (n fuel : nat) :
  (forall k, (k < 2 * S n)%nat -> write_caught (write_outcome w k) = true) ->
  (forall i, (i < n)%nat -> sleep_outcome w i = None) ->
  sleep_outcome w n = Some KeyboardInterrupt ->
  (n < fuel)%nat ->
  run fuel w =
  (connected ++ turns_events w 0%nat 0 0 (S n)
     ++ [EvPrint (nl ++ nl ++ "Exiting...")%string; EvClose 0%nat],
   Ret tt).
Proof.
  intros Hw Hs Hi Hfuel. rewrite (run_open_ok w fuel hid_there open_ok).
  replace fuel with (n + S (fuel - S n))%nat by lia.
  rewrite loop_interrupted_in_pause; try assumption.
  unfold after_try. cbn [is_OSError is_KeyboardInterrupt].
  rewrite <- app_assoc. reflexivity.
Qed.

End Scenarios.

(** ** The locator *)

Section Locator.

Variable w : World.

(** Whether an entry of the enumeration is on the haptic interface. *)
Let on_haptic_interface (d : device_info) : bool := interface_number d =? 2.

Lemma find_haptic_interface_eq (devices : list device_info) (tr : trace) :
  find_haptic_interface devices w tr =
  if existsb on_haptic_interface devices
  then (tr ++ [EvDevice (count_devices tr)], Ret (Some (count_devices tr)))
  else (tr, Ret None).
Proof.
  induction devices as [|d devices IH]; [reflexivity|].
  simpl. unfold on_haptic_interface at 1.
  destruct (interface_number d =? 2); [reflexivity | exact IH].
Qed.

Lemma find_steam_deck_controller_eq (tr : trace) :
  hid_installed w = true ->
  find_steam_deck_controller w tr =
  if existsb on_haptic_interface
       (enumerate_result w VALVE_VENDOR_ID STEAM_DECK_PRODUCT_ID)
  then (tr ++ [EvEnumerate VALVE_VENDOR_ID STEAM_DECK_PRODUCT_ID;
               EvDevice (count_devices tr)],
        Ret (Some (count_devices tr)))
  else (tr ++ [EvEnumerate VALVE_VENDOR_ID STEAM_DECK_PRODUCT_ID], Ret None).
Proof.
  intros Hh. unfold find_steam_deck_controller.
  unfold bind, try_except, import_hid, hid_enumerate. rewrite Hh.
  rewrite find_haptic_interface_eq.
  destruct (existsb _ _); [|reflexivity].
  rewrite count_devices_app. simpl count_devices.
  rewrite Nat.add_0_r, <- app_assoc. reflexivity.
Qed.

Lemma find_steam_deck_controller_without_hid (tr : trace) :
  hid_installed w = false ->
  find_steam_deck_controller w tr =
  (tr ++ [EvPrint "Error: hidapi library required. Install with: pip install hidapi"],
   Raise (SystemExit 1)).
Proof.
  intros Hh. unfold find_steam_deck_controller.
  unfold bind, try_except, import_hid. rewrite Hh. reflexivity.
Qed.

End Locator.

(** * The claims about the encoder *)

(** C1: every report [send_haptic_pulse] writes, for any pad selector and
    any amplitude, period and count within 16 bits, has exactly 64 bytes:
    byte 0 is 0x8f, byte 1 is 0x07, byte 2 is the id of a pad of the
    selector, bytes 3-4, 5-6 and 7-8 hold amplitude, period and count least
    significant byte first, and bytes 9-63 are zero.  For pad 'left',
    amplitude 0x8000, period 0x0032 and count 4000 the call writes the one
    buffer 8f 07 01 00 80 32 00 a0 0f followed by 55 zero bytes. *)
Theorem report_layout (w : World) (device : handle) (pad : string)
    (amplitude period count : Z) (tr : trace) :
  0 <= amplitude <= 0xFFFF -> 0 <= period <= 0xFFFF -> 0 <= count <= 0xFFFF ->
  (exists sent,
      writes_of (fst (send_haptic_pulse device pad amplitude period count w tr))
      = writes_of tr ++ sent /\
      sent <> [] /\
      forall message, In message sent ->
        List.length message = 64%nat /\
        nth 0 message x00 = x8f /\
        nth 1 message x00 = x07 /\
        (exists pad_id, In pad_id (pads_of pad) /\
                        Struct.Z_of_byte (nth 2 message xff) = pad_id) /\
        Struct.unpack_H (slice 3 5 message) = Some amplitude /\
        Struct.unpack_H (slice 5 7 message) = Some period /\
        Struct.unpack_H (slice 7 9 message) = Some count /\
        slice 9 64 message = repeat x00 55) /\
  writes_of (fst (send_haptic_pulse device "left" 0x8000 0x0032 4000 w []))
  = [[x8f; x07; x01; x00; x80; x32; x00; xa0; x0f] ++ repeat x00 55].
Proof.
  intros Ha Hp Hc. split.
  - exists (sent_reports w pad amplitude period count tr).
    split; [apply writes_of_send, fields_fit_iff; tauto|].
    split; [apply sent_reports_nonempty|].
    intros message Hin.
    apply sent_reports_in in Hin. destruct Hin as (pad_id & Hid & ->).
    assert (Hb : 0 <= pad_id <= 255) by (apply pads_of_in in Hid; lia).
    destruct (wire_format_fields amplitude period count pad_id Hb Ha Hp Hc)
      as (F2 & F3 & F5 & F7).
    repeat split; try assumption.
    exists pad_id. split; assumption.
  - rewrite writes_of_send by reflexivity.
    rewrite (sent_reports_single w "left" _ _ _ [] 1) by reflexivity.
    reflexivity.
Qed.

Lemma report_layout_witness :
  exists sent,
    writes_of (fst (send_haptic_pulse 0%nat "both" 0x8000 0x0050 4
                      quiet_world []))
    = [] ++ sent /\ sent <> [].
Proof.
  destruct (report_layout quiet_world 0%nat "both" 0x8000 0x0050 4 [])
    as [(sent & Hw & Hne & _) _]; try lia.
  exists sent. split; assumption.
Defined.

(** C2: for a pad selector among left, right and both and parameters within
    16 bits, the sender writes exactly one report for left and for right
    and exactly two, one after the other, for both (the second follows
    unless the first write is interrupted by an exception the sender does
    not catch); every report has exactly 64 bytes. *)
Theorem report_count (w : World) (device : handle) (pad : string)
    (amplitude period count : Z) (tr : trace) :
  0 <= amplitude <= 0xFFFF -> 0 <= period <= 0xFFFF -> 0 <= count <= 0xFFFF ->
  pad = "left" \/ pad = "right" \/ pad = "both" ->
  exists sent,
    writes_of (fst (send_haptic_pulse device pad amplitude period count w tr))
    = writes_of tr ++ sent /\
    Forall (fun message => List.length message = 64%nat) sent /\
    (pad = "left" \/ pad = "right" -> List.length sent = 1%nat) /\
    (pad = "both" ->
     write_caught (write_outcome w (List.length (writes_of tr))) = true ->
     List.length sent = 2%nat).
Proof.
  intros Ha Hp Hc Hpad.
  exists (sent_reports w pad amplitude period count tr).
  split; [apply writes_of_send, fields_fit_iff; tauto|].
  split.
  - apply Forall_forall. intros message Hin.
    apply sent_reports_in in Hin. destruct Hin as (pad_id & _ & ->).
    apply wire_format_length.
  - split.
    + intros [->| ->].
      * rewrite (sent_reports_single w "left" _ _ _ tr 1); reflexivity.
      * rewrite (sent_reports_single w "right" _ _ _ tr 0); reflexivity.
    + intros -> Hcaught. rewrite sent_reports_both; auto.
Qed.

Lemma report_count_witness :
  (exists sent,
      writes_of (fst (send_haptic_pulse 0%nat "both" 0x8000 0x0032 4000
                        quiet_world []))
      = [] ++ sent /\ List.length sent = 2%nat) /\
  (exists sent,
      writes_of (fst (send_haptic_pulse 0%nat "right" 0x8000 0x0032 4000
                        quiet_world []))
      = [] ++ sent /\ List.length sent = 1%nat).
Proof.
  split.
  - destruct (report_count quiet_world 0%nat "both" 0x8000 0x0032 4000 [])
      as (sent & Hw & _ & _ & Hboth); try lia.
    + right. right. reflexivity.
    + exists sent. split; [exact Hw|]. apply Hboth; reflexivity.
  - destruct (report_count quiet_world 0%nat "right" 0x8000 0x0032 4000 [])
      as (sent & Hw & _ & Hsingle & _); try lia.
    + right. left. reflexivity.
    + exists sent. split; [exact Hw|]. apply Hsingle. right. reflexivity.
Defined.

(** C3: with parameters within 16 bits, byte 2 of the report is 0x01 for
    the selector 'left' and 0x00 for 'right'; for 'both' the first of the
    two reports carries 0x00 and the second 0x01. *)
Theorem pad_byte (w : World) (device : handle) (pad : string)
    (amplitude period count : Z) (tr : trace) :
  0 <= amplitude <= 0xFFFF -> 0 <= period <= 0xFFFF -> 0 <= count <= 0xFFFF ->
  exists sent,
    writes_of (fst (send_haptic_pulse device pad amplitude period count w tr))
    = writes_of tr ++ sent /\
    (pad = "left" -> exists m, sent = [m] /\ nth 2 m xff = x01) /\
    (pad = "right" -> exists m, sent = [m] /\ nth 2 m xff = x00) /\
    (pad = "both" ->
     write_caught (write_outcome w (List.length (writes_of tr))) = true ->
     exists m0 m1, sent = [m0; m1] /\ nth 2 m0 xff = x00 /\ nth 2 m1 xff = x01).
Proof.
  intros Ha Hp Hc.
  exists (sent_reports w pad amplitude period count tr).
  split; [apply writes_of_send, fields_fit_iff; tauto|].
  repeat split.
  - intros ->. eexists. split.
    + apply (sent_reports_single w "left" _ _ _ tr 1). reflexivity.
    + reflexivity.
  - intros ->. eexists. split.
    + apply (sent_reports_single w "right" _ _ _ tr 0). reflexivity.
    + reflexivity.
  - intros -> Hcaught. do 2 eexists. split.
    + apply sent_reports_both; [reflexivity | exact Hcaught].
    + split; reflexivity.
Qed.

Lemma pad_byte_witness :
  (exists m0 m1,
      writes_of (fst (send_haptic_pulse 0%nat "both" 0x8000 0x0032 4000
                        quiet_world []))
      = [m0; m1] /\ nth 2 m0 xff = x00 /\ nth 2 m1 xff = x01) /\
  (exists m,
      writes_of (fst (send_haptic_pulse 0%nat "left" 0x8000 0x0032 4000
                        quiet_world []))
      = [m] /\ nth 2 m xff = x01) /\
  (exists m,
      writes_of (fst (send_haptic_pulse 0%nat "right" 0x8000 0x0032 4000
                        quiet_world []))
      = [m] /\ nth 2 m xff = x00).
Proof.
  split; [|split].
  - destruct (pad_byte quiet_world 0%nat "both" 0x8000 0x0032 4000 [])
      as (sent & Hw & _ & _ & Hboth); try lia.
    destruct Hboth as (m0 & m1 & -> & H0 & H1); try reflexivity.
    exists m0, m1. repeat split; assumption.
  - destruct (pad_byte quiet_world 0%nat "left" 0x8000 0x0032 4000 [])
      as (sent & Hw & Hleft & _); try lia.
    destruct Hleft as (m & -> & Hm); [reflexivity|].
    exists m. split; assumption.
  - destruct (pad_byte quiet_world 0%nat "right" 0x8000 0x0032 4000 [])
      as (sent & Hw & _ & Hright & _); try lia.
    destruct Hright as (m & -> & Hm); [reflexivity|].
    exists m. split; assumption.
Defined.

(** C4, as the code has it: amplitude, period and count are not wrapped
    into their fields.  When all three are within 16 bits every report has
    exactly 64 bytes and carries them unchanged; when one of them is not,
    [struct.pack] raises [struct.error], the sender does not catch it and
    nothing is written. *)
Theorem out_of_range_raises (w : World) (device : handle) (pad : string)
    (amplitude period count : Z) (tr : trace) :
  (0 <= amplitude <= 0xFFFF /\ 0 <= period <= 0xFFFF /\ 0 <= count <= 0xFFFF ->
   exists sent,
     writes_of (fst (send_haptic_pulse device pad amplitude period count w tr))
     = writes_of tr ++ sent /\
     sent <> [] /\
     forall message, In message sent ->
       List.length message = 64%nat /\
       Struct.unpack_H (slice 3 5 message) = Some amplitude /\
       Struct.unpack_H (slice 5 7 message) = Some period /\
       Struct.unpack_H (slice 7 9 message) = Some count) /\
  (~ (0 <= amplitude <= 0xFFFF /\ 0 <= period <= 0xFFFF /\ 0 <= count <= 0xFFFF) ->
   send_haptic_pulse device pad amplitude period count w tr =
   (tr, Raise (StructError "'H' format requires 0 <= number <= 65535"))).
Proof.
  split.
  - intros (Ha & Hp & Hc).
    exists (sent_reports w pad amplitude period count tr).
    split; [apply writes_of_send, fields_fit_iff; tauto|].
    split; [apply sent_reports_nonempty|].
    intros message Hin.
    apply sent_reports_in in Hin. destruct Hin as (pad_id & Hid & ->).
    assert (Hb : 0 <= pad_id <= 255) by (apply pads_of_in in Hid; lia).
    destruct (wire_format_fields amplitude period count pad_id Hb Ha Hp Hc)
      as (_ & F3 & F5 & F7).
    repeat split; assumption.
  - intros Hout. apply send_out_of_range.
    destruct (in_u16 amplitude && in_u16 period && in_u16 count) eqn:E;
      [|reflexivity].
    apply fields_fit_iff in E. contradiction.
Qed.

Lemma out_of_range_raises_witness :
  send_haptic_pulse 0%nat "both" 0x12345 0x0050 4 quiet_world [] =
  ([], Raise (StructError "'H' format requires 0 <= number <= 65535")).
Proof.
  apply (out_of_range_raises quiet_world 0%nat "both" 0x12345 0x0050 4 []).
  lia.
Defined.

(** Against C4 as it is worded: an amplitude above 0xFFFF is rejected, not
    truncated.  Packing it gives no buffer at all, and the call for the
    left pad ends with [struct.error] having written nothing. *)
Lemma truncation_counterexample :
  (forall message, build_message 1 0x10000 0x0050 4 <> inr message) /\
  writes_of (fst (send_haptic_pulse 0%nat "left" 0x10000 0x0050 4
                    quiet_world [])) = [] /\
  snd (send_haptic_pulse 0%nat "left" 0x10000 0x0050 4 quiet_world []) =
  Raise (StructError "'H' format requires 0 <= number <= 65535").
Proof.
  split; [intros message; discriminate|]. split; reflexivity.
Qed.

(** C9: for values within [0, 0xFFFF], the amplitude, the period and the
    count put into a report are read back unchanged from its bytes 3-4,
    5-6 and 7-8, least significant byte first. *)
Theorem fields_round_trip (pad_id amplitude period count : Z) :
  0 <= pad_id <= 255 ->
  0 <= amplitude <= 0xFFFF -> 0 <= period <= 0xFFFF -> 0 <= count <= 0xFFFF ->
  exists message,
    build_message pad_id amplitude period count = inr message /\
    Struct.unpack_H (slice 3 5 message) = Some amplitude /\
    Struct.unpack_H (slice 5 7 message) = Some period /\
    Struct.unpack_H (slice 7 9 message) = Some count.
Proof.
  intros Hid Ha Hp Hc.
  exists (wire_format pad_id amplitude period count). split.
  - rewrite build_message_eq by exact Hid.
    replace (in_u16 amplitude && in_u16 period && in_u16 count) with true;
      [reflexivity|].
    symmetry. apply fields_fit_iff. tauto.
  - apply wire_format_fields; assumption.
Qed.

Lemma fields_round_trip_witness :
  exists message,
    build_message 1 0xFFFF 0 0x1234 = inr message /\
    Struct.unpack_H (slice 3 5 message) = Some 0xFFFF /\
    Struct.unpack_H (slice 5 7 message) = Some 0 /\
    Struct.unpack_H (slice 7 9 message) = Some 0x1234.
Proof. apply (fields_round_trip 1 0xFFFF 0 0x1234); lia. Defined.

(** C10: a pad selector other than 'both' and 'left' ('right', a
    misspelling, any other string) is not rejected: with parameters within
    16 bits the sender writes exactly one 64-byte report, and its pad byte
    is 0x00, the right pad. *)
Theorem other_selector_is_right (w : World) (device : handle) (pad : string)
    (amplitude period count : Z) (tr : trace) :
  0 <= amplitude <= 0xFFFF -> 0 <= period <= 0xFFFF -> 0 <= count <= 0xFFFF ->
  pad <> "both" -> pad <> "left" ->
  exists message,
    writes_of (fst (send_haptic_pulse device pad amplitude period count w tr))
    = writes_of tr ++ [message] /\
    List.length message = 64%nat /\
    nth 2 message xff = x00.
Proof.
  intros Ha Hp Hc Hb Hl.
  exists (wire_format 0 amplitude period count). split.
  - rewrite writes_of_send by (apply fields_fit_iff; tauto).
    rewrite (sent_reports_single w pad _ _ _ tr 0); [reflexivity|].
    apply pads_of_other; assumption.
  - split; reflexivity.
Qed.

Lemma other_selector_is_right_witness :
  exists message,
    writes_of (fst (send_haptic_pulse 0%nat "lfet" 0x8000 0x0050 4
                      quiet_world []))
    = [] ++ [message] /\
    List.length message = 64%nat /\
    nth 2 message xff = x00.
Proof.
  apply (other_selector_is_right quiet_world 0%nat "lfet" 0x8000 0x0050 4 []);
    try lia; discriminate.
Defined.

(** * The claims about the driver *)

(** C6: the exit status is 1 when the HID library is missing and when the
    open of the device fails, and in both cases nothing is written to the
    device; it is 0 when the run ends by the user's interrupt, which it
    does whenever a call is interrupted, for instance in the pause of a
    turn the run reaches. *)
Theorem exit_status_of_run (w : World) (fuel : nat) :
  (hid_installed w = false ->
   exit_status (snd (run fuel w)) = Some 1 /\
   writes_of (fst (run fuel w)) = []) /\
  (hid_installed w = true ->
   forall msg, open_outcome w = Some (OSError msg) ->
   exit_status (snd (run fuel w)) = Some 1 /\
   writes_of (fst (run fuel w)) = []) /\
  (hid_installed w = true ->
   interrupted (fst (run fuel w)) = true ->
   exit_status (snd (run fuel w)) = Some 0) /\
  (hid_installed w = true -> open_outcome w = None ->
   forall n,
     (forall k, (k < 2 * S n)%nat -> write_caught (write_outcome w k) = true) ->
     (forall i, (i < n)%nat -> sleep_outcome w i = None) ->
     sleep_outcome w n = Some KeyboardInterrupt ->
     (n < fuel)%nat ->
     exit_status (snd (run fuel w)) = Some 0).
Proof.
  split; [|split; [|split]].
  - intros Hh. rewrite (run_without_hid w fuel Hh). split; reflexivity.
  - intros Hh msg Ho. rewrite (run_open_raised w fuel _ Hh Ho).
    split; reflexivity.
  - intros Hh Hint.
    destruct (try_block w fuel Hh) as (tr & o & Hrun & _ & Hi & _).
    rewrite Hrun in Hint |- *. rewrite after_try_end.
    destruct (after_try_trace 0%nat tr o) as (lines & Htr).
    rewrite Htr, !interrupted_app in Hint.
    destruct (lines_frame lines) as (_ & _ & _ & _ & _ & Hl & _).
    rewrite Hl, Hi in Hint.
    destruct o as [a|e|]; simpl in Hint; try discriminate.
    destruct e; simpl in Hint; try discriminate. reflexivity.
  - intros Hh Ho n Hw Hs Hi Hfuel.
    rewrite (run_interrupted_in_pause w Hh Ho n fuel Hw Hs Hi Hfuel).
    reflexivity.
Qed.

Lemma exit_status_of_run_witness :
  exit_status (snd (run 3 no_hid_world)) = Some 1 /\
  (exit_status (snd (run 3 open_fails_world)) = Some 1 /\
   writes_of (fst (run 3 open_fails_world)) = []) /\
  (interrupted (fst (run 3 (interrupt_world 1))) = true /\
   exit_status (snd (run 3 (interrupt_world 1))) = Some 0).
Proof.
  destruct (exit_status_of_run no_hid_world 3) as (Hmissing & _).
  destruct (exit_status_of_run open_fails_world 3) as (_ & Hopen & _).
  destruct (exit_status_of_run (interrupt_world 1) 3)
    as (_ & _ & Hany & Hpause).
  split; [apply Hmissing; reflexivity|].
  split; [apply Hopen with (msg := "open failed"); reflexivity|].
  split; [reflexivity|].
  assert (H0 : exit_status (snd (run 3 (interrupt_world 1))) = Some 0)
    by (apply Hany; reflexivity).
  apply (Hpause eq_refl eq_refl 1%nat).
  - intros k _. reflexivity.
  - intros i Hi. destruct i; [reflexivity | lia].
  - reflexivity.
  - lia.
Defined.

(** C7: a write that fails with an exception is caught and logged, and
    nothing else happens to it.  In one call of the sender the failed
    write is followed by its log line and then by the next report; when
    every write returns or fails, the call returns normally, having written
    each report of the selector once, in order, and logged one line for
    each failed write.  In the driver, whichever writes fail, the loop is
    still going after any number of turns, having made two writes and one
    pause in each and logged one line for each failed write. *)
Theorem write_failure_does_not_abort (w : World) :
  (forall device amplitude period count tr e,
      0 <= amplitude <= 0xFFFF -> 0 <= period <= 0xFFFF ->
      0 <= count <= 0xFFFF ->
      write_outcome w (List.length (writes_of tr)) = Some e ->
      is_Exception e = true ->
      fst (send_haptic_pulse device "both" amplitude period count w tr) =
      tr ++ [EvWrite device (wire_format 0 amplitude period count) (Some e);
             EvPrint ("Error sending haptic command: " ++ str e)%string;
             EvWrite device (wire_format 1 amplitude period count)
               (write_outcome w (S (List.length (writes_of tr))))]
         ++ write_log (write_outcome w (S (List.length (writes_of tr))))) /\
  ((forall k, write_caught (write_outcome w k) = true) ->
   forall device pad amplitude period count tr,
     0 <= amplitude <= 0xFFFF -> 0 <= period <= 0xFFFF ->
     0 <= count <= 0xFFFF ->
     snd (send_haptic_pulse device pad amplitude period count w tr) = Ret tt /\
     writes_of (fst (send_haptic_pulse device pad amplitude period count w tr))
     = writes_of tr
       ++ map (fun pad_id => wire_format pad_id amplitude period count)
            (pads_of pad) /\
     prints_of (fst (send_haptic_pulse device pad amplitude period count w tr))
     = prints_of tr
       ++ error_lines w (List.length (writes_of tr))
            (List.length (pads_of pad))) /\
  ((forall k, write_caught (write_outcome w k) = true) ->
   hid_installed w = true -> open_outcome w = None ->
   (forall i, sleep_outcome w i = None) ->
   forall fuel,
     snd (run fuel w) = Running /\
     writes_of (fst (run fuel w)) = List.concat (repeat write_cycle fuel) /\
     count_sleeps (fst (run fuel w)) = fuel /\
     prints_of (fst (run fuel w))
     = prints_of connected ++ error_lines w 0 (2 * fuel) /\
     closes_of (fst (run fuel w)) = []).
Proof.
  split; [|split].
  - intros device amplitude period count tr e Ha Hp Hc He Hex.
    assert (Hfit : in_u16 amplitude && in_u16 period && in_u16 count = true)
      by (apply fields_fit_iff; tauto).
    rewrite (send_two w device _ _ _ Hfit "both" tr eq_refl). cbv zeta.
    rewrite He. simpl write_caught. rewrite Hex. simpl fst.
    simpl write_log. rewrite Hex. rewrite <- app_assoc. reflexivity.
  - intros Hcaught device pad amplitude period count tr Ha Hp Hc.
    assert (Hfit : in_u16 amplitude && in_u16 period && in_u16 count = true)
      by (apply fields_fit_iff; tauto).
    split; [apply send_returns; assumption|].
    split.
    + rewrite writes_of_send by exact Hfit. unfold sent_reports.
      rewrite Hcaught. reflexivity.
    + destruct (pads_of_cases pad) as [Hpad|[Hpad|Hpad]]; rewrite Hpad.
      * rewrite (send_two w device _ _ _ Hfit pad tr Hpad). cbv zeta.
        rewrite Hcaught. simpl fst. rewrite !prints_of_app. simpl.
        rewrite app_nil_r, <- app_assoc. reflexivity.
      * rewrite (send_one w device _ _ _ Hfit pad 1 tr Hpad) by lia.
        simpl fst. rewrite prints_of_app. simpl. rewrite app_nil_r.
        reflexivity.
      * rewrite (send_one w device _ _ _ Hfit pad 0 tr Hpad) by lia.
        simpl fst. rewrite prints_of_app. simpl. rewrite app_nil_r.
        reflexivity.
  - intros Hcaught Hh Ho Hs fuel.
    rewrite (run_uninterrupted w Hh Ho fuel Hcaught Hs). cbn [fst snd].
    split; [reflexivity|].
    destruct (loop_events_frame _ (loop_events_turns w 0%nat 0 0 fuel))
      as (Hcl & _).
    rewrite writes_of_app, count_sleeps_app, prints_of_app, closes_of_app.
    rewrite writes_of_turns, count_sleeps_turns, prints_of_turns, Hcl.
    repeat split.
Qed.

Lemma write_failure_does_not_abort_witness :
  fst (send_haptic_pulse 0%nat "both" 0x8000 0x0032 4000
         failing_writes_world []) =
  [EvWrite 0%nat (main_report 0) (Some (OSError "write error"));
   EvPrint "Error sending haptic command: write error";
   EvWrite 0%nat (main_report 1) (Some (OSError "write error"));
   EvPrint "Error sending haptic command: write error"] /\
  snd (send_haptic_pulse 0%nat "both" 0x8000 0x0032 4000
         failing_writes_world []) = Ret tt /\
  snd (run 5 failing_writes_world) = Running /\
  List.length (writes_of (fst (run 5 failing_writes_world))) = 10%nat.
Proof.
  destruct (write_failure_does_not_abort failing_writes_world)
    as (Hnext & Hcall & Hloop).
  split.
  - apply (Hnext 0%nat 0x8000 0x0032 4000 [] (OSError "write error"));
      try lia; reflexivity.
  - split.
    + apply (Hcall (fun _ => eq_refl) 0%nat "both" 0x8000 0x0032 4000 []); lia.
    + destruct (Hloop (fun _ => eq_refl) eq_refl eq_refl (fun _ => eq_refl) 5%nat)
        as (Hrun & Hwrites & _).
      split; [exact Hrun|]. rewrite Hwrites. reflexivity.
Defined.

(** C8: once the handle is created, every run that ends has closed it,
    exactly once and as its last action, and a run that is still going has
    not closed it: this holds when the open fails, when the user
    interrupts, and for any other exception that ends the run.  When the
    open fails the run ends with one close; when the user interrupts the
    open, it ends with no write and one close; when the user interrupts
    the pause of turn [N], it ends with exactly [N] write cycles, [N]
    pauses and one close. *)
Theorem handle_closed_once (w : World) (fuel : nat) :
  hid_installed w = true ->
  (snd (run fuel w) <> Running ->
   closes_of (fst (run fuel w)) = [0%nat] /\
   exists tr, fst (run fuel w) = tr ++ [EvClose 0%nat]) /\
  (snd (run fuel w) = Running -> closes_of (fst (run fuel w)) = []) /\
  (forall msg, open_outcome w = Some (OSError msg) ->
     snd (run fuel w) = Raise (SystemExit 1) /\
     closes_of (fst (run fuel w)) = [0%nat]) /\
  (open_outcome w = Some KeyboardInterrupt ->
     snd (run fuel w) = Ret tt /\
     writes_of (fst (run fuel w)) = [] /\
     closes_of (fst (run fuel w)) = [0%nat]) /\
  (forall N, (0 < N <= fuel)%nat ->
     open_outcome w = None ->
     (forall k, (k < 2 * N)%nat -> write_caught (write_outcome w k) = true) ->
     (forall i, (i < N - 1)%nat -> sleep_outcome w i = None) ->
     sleep_outcome w (N - 1) = Some KeyboardInterrupt ->
     snd (run fuel w) = Ret tt /\
     writes_of (fst (run fuel w)) = List.concat (repeat write_cycle N) /\
     count_sleeps (fst (run fuel w)) = N /\
     closes_of (fst (run fuel w)) = [0%nat]).
Proof.
  intros Hh.
  assert (Hends : (snd (run fuel w) <> Running ->
                   closes_of (fst (run fuel w)) = [0%nat] /\
                   exists tr, fst (run fuel w) = tr ++ [EvClose 0%nat]) /\
                  (snd (run fuel w) = Running ->
                   closes_of (fst (run fuel w)) = [])).
  { destruct (try_block w fuel Hh) as (tr & o & Hrun & _ & _ & Hc & _).
    rewrite Hrun, after_try_end.
    destruct (after_try_trace 0%nat tr o) as (lines & Htr). rewrite Htr.
    destruct (lines_frame lines) as (_ & Hl & _).
    rewrite !closes_of_app, Hc, Hl.
    destruct o as [a|e|].
    - split; [|discriminate]. intros _. split; [reflexivity|].
      exists (tr ++ map EvPrint lines). rewrite <- app_assoc. reflexivity.
    - split.
      + intros _. split; [reflexivity|].
        exists (tr ++ map EvPrint lines). rewrite <- app_assoc. reflexivity.
      + destruct (is_OSError e); [discriminate|].
        destruct (is_KeyboardInterrupt e); discriminate.
    - split; [intros Hne; contradiction | reflexivity]. }
  destruct Hends as (Hended & Hgoing).
  split; [exact Hended|]. split; [exact Hgoing|].
  split; [|split].
  - intros msg Ho. rewrite (run_open_raised w fuel _ Hh Ho). split; reflexivity.
  - intros Ho. rewrite (run_open_raised w fuel _ Hh Ho). repeat split.
  - intros N HN Ho Hw Hs Hi.
    destruct N as [|n]; [lia|].
    replace (S n - 1)%nat with n in Hs, Hi by lia.
    rewrite (run_interrupted_in_pause w Hh Ho n fuel Hw Hs Hi ltac:(lia)).
    cbn [fst snd]. split; [reflexivity|].
    destruct (loop_events_frame _ (loop_events_turns w 0%nat 0 0 (S n)))
      as (Hcl & _).
    rewrite !writes_of_app, !count_sleeps_app, !closes_of_app.
    rewrite writes_of_turns, count_sleeps_turns, Hcl.
    split; [apply app_nil_r|]. split; [simpl; lia | reflexivity].
Qed.

Lemma handle_closed_once_witness :
  (closes_of (fst (run 5 open_fails_world)) = [0%nat] /\
   snd (run 5 open_fails_world) = Raise (SystemExit 1)) /\
  (snd (run 5 interrupted_open_world) = Ret tt /\
   writes_of (fst (run 5 interrupted_open_world)) = [] /\
   closes_of (fst (run 5 interrupted_open_world)) = [0%nat]) /\
  (snd (run 5 (interrupt_world 2)) = Ret tt /\
   writes_of (fst (run 5 (interrupt_world 2)))
   = List.concat (repeat write_cycle 3) /\
   count_sleeps (fst (run 5 (interrupt_world 2))) = 3%nat /\
   closes_of (fst (run 5 (interrupt_world 2))) = [0%nat]) /\
  closes_of (fst (run 5 quiet_world)) = [].
Proof.
  destruct (handle_closed_once open_fails_world 5 eq_refl)
    as (Hended & _ & Hopen & _).
  destruct (handle_closed_once interrupted_open_world 5 eq_refl)
    as (_ & _ & _ & Hearly & _).
  destruct (handle_closed_once (interrupt_world 2) 5 eq_refl)
    as (_ & _ & _ & _ & Hpause).
  destruct (handle_closed_once quiet_world 5 eq_refl) as (_ & Hgoing & _).
  split; [|split; [|split]].
  - split; [apply Hended; discriminate|].
    apply (Hopen "open failed"). reflexivity.
  - apply Hearly. reflexivity.
  - apply (Hpause 3%nat); try reflexivity; try lia.
    intros i Hi. destruct i as [|[|i]]; [reflexivity | reflexivity | lia].
  - apply Hgoing. reflexivity.
Defined.

(** Against C5 as it is worded: the locator returns a handle it has not
    opened.  With a controller attached whose third entry is on interface
    2, it enumerates, creates a handle and returns it, and makes no open
    call; and [main] never enumerates: it opens by vendor and product id,
    whatever the interfaces. *)
Lemma locator_counterexample :
  find_steam_deck_controller deck_world [] =
  ([EvEnumerate 0x28de 0x1205; EvDevice 0%nat], Ret (Some 0%nat)) /\
  is_open 0%nat (fst (find_steam_deck_controller deck_world [])) = false /\
  opens_of (fst (find_steam_deck_controller deck_world [])) = [] /\
  enumerates_of (fst (run 1 deck_world)) = [] /\
  opens_of (fst (run 1 deck_world)) = [(0%nat, 0x28de, 0x1205)].
Proof. repeat split. Qed.

(** C5, as the code has it: the locator takes no arguments; it enumerates
    the devices with vendor id 0x28de and product id 0x1205 and returns a
    new handle when one of them is on interface 2 and [None] otherwise,
    opening nothing; without the HID library it exits with status 1.
    [main] does not enumerate: it creates a handle and opens it by vendor
    and product id alone; the handle is open while the loop runs, and when
    the open fails with [OSError] the run exits with status 1, the handle
    not open. *)
Theorem locator_behaviour (w : World) :
  (hid_installed w = true ->
   forall tr,
     find_steam_deck_controller w tr =
     (if existsb (fun d => interface_number d =? 2)
           (enumerate_result w 0x28de 0x1205)
      then (tr ++ [EvEnumerate 0x28de 0x1205; EvDevice (count_devices tr)],
            Ret (Some (count_devices tr)))
      else (tr ++ [EvEnumerate 0x28de 0x1205], Ret None)) /\
     opens_of (fst (find_steam_deck_controller w tr)) = opens_of tr) /\
  (hid_installed w = false ->
   forall tr,
     find_steam_deck_controller w tr =
     (tr ++ [EvPrint "Error: hidapi library required. Install with: pip install hidapi"],
      Raise (SystemExit 1))) /\
  (hid_installed w = true ->
   forall fuel,
     enumerates_of (fst (run fuel w)) = [] /\
     opens_of (fst (run fuel w)) = [(0%nat, 0x28de, 0x1205)] /\
     (open_outcome w = None -> snd (run fuel w) = Running ->
      is_open 0%nat (fst (run fuel w)) = true) /\
     (forall msg, open_outcome w = Some (OSError msg) ->
        exit_status (snd (run fuel w)) = Some 1 /\
        is_open 0%nat (fst (run fuel w)) = false)).
Proof.
  split; [|split].
  - intros Hh tr. rewrite (find_steam_deck_controller_eq w tr Hh).
    split; [reflexivity|].
    destruct (existsb _ _); simpl fst; rewrite opens_of_app;
      apply app_nil_r.
  - intros Hh tr. apply (find_steam_deck_controller_without_hid w tr Hh).
  - intros Hh fuel.
    destruct (try_block w fuel Hh)
      as (tr & o & Hrun & _ & _ & _ & Hen & Hop & Hopen & _).
    destruct (after_try_trace 0%nat tr o) as (lines & Htr).
    destruct (lines_frame lines) as (_ & _ & Hlo & Hle & _ & _ & Hli).
    split; [|split; [|split]].
    + rewrite Hrun, Htr, !enumerates_of_app, Hen, Hle.
      destruct o; reflexivity.
    + rewrite Hrun, Htr, !opens_of_app, Hop, Hlo.
      destruct o; reflexivity.
    + intros Ho Hgoing. rewrite Hrun in Hgoing |- *.
      rewrite after_try_end in Hgoing. rewrite Htr.
      unfold is_open. rewrite !is_open_from_app, Hli.
      fold (is_open 0%nat tr). rewrite (Hopen Ho).
      destruct o as [a|e|]; try discriminate; [|reflexivity].
      destruct (is_OSError e); [discriminate|].
      destruct (is_KeyboardInterrupt e); discriminate.
    + intros msg Ho. rewrite (run_open_raised w fuel _ Hh Ho).
      split; reflexivity.
Qed.

Lemma locator_behaviour_witness :
  find_steam_deck_controller deck_world [] =
  ([EvEnumerate 0x28de 0x1205; EvDevice 0%nat], Ret (Some 0%nat)) /\
  snd (find_steam_deck_controller no_hid_world []) = Raise (SystemExit 1) /\
  is_open 0%nat (fst (run 2 deck_world)) = true /\
  exit_status (snd (run 2 open_fails_world)) = Some 1.
Proof.
  destruct (locator_behaviour deck_world) as (Hfind & _ & Hmain).
  destruct (locator_behaviour no_hid_world) as (_ & Hmissing & _).
  destruct (locator_behaviour open_fails_world) as (_ & _ & Hfails).
  split; [apply (Hfind eq_refl [])|].
  split; [rewrite (Hmissing eq_refl []); reflexivity|].
  split.
  - destruct (Hmain eq_refl 2%nat) as (_ & _ & Hopen & _).
    apply Hopen; reflexivity.
  - destruct (Hfails eq_refl 2%nat) as (_ & _ & _ & Hexit).
    apply (Hexit "open failed"). reflexivity.
Defined.

(** * Further properties of the sender and the encoder *)

(** X1: an exception of [device.write] that is not an [Exception]
    ([KeyboardInterrupt], [SystemExit]) is not caught by the sender.  When
    the first write of a call raises one, the call ends with it after that
    one write, without a log line, and for 'both' the left pad's report is
    not written; when the second write of 'both' raises one, the call ends
    with it after the two writes. *)
Theorem interrupt_leaves_sender (w : World) (device : handle) (pad : string)
    (amplitude period count : Z) (tr : trace) (e : exn) :
  0 <= amplitude <= 0xFFFF -> 0 <= period <= 0xFFFF -> 0 <= count <= 0xFFFF ->
  is_Exception e = false ->
  (write_outcome w (List.length (writes_of tr)) = Some e ->
   send_haptic_pulse device pad amplitude period count w tr =
   (tr ++ [EvWrite device
             (wire_format (hd 0 (pads_of pad)) amplitude period count)
             (Some e)],
    Raise e)) /\
  (pad = "both" ->
   write_caught (write_outcome w (List.length (writes_of tr))) = true ->
   write_outcome w (S (List.length (writes_of tr))) = Some e ->
   snd (send_haptic_pulse device pad amplitude period count w tr) = Raise e /\
   writes_of (fst (send_haptic_pulse device pad amplitude period count w tr))
   = writes_of tr ++ [wire_format 0 amplitude period count;
                      wire_format 1 amplitude period count]).
Proof.
  intros Ha Hp Hc He.
  assert (Hfit : in_u16 amplitude && in_u16 period && in_u16 count = true)
    by (apply fields_fit_iff; tauto).
  split.
  - intros Hw.
    destruct (pads_of_cases pad) as [Hpad|[Hpad|Hpad]]; rewrite Hpad.
    + rewrite (send_two w device _ _ _ Hfit pad tr Hpad). cbv zeta.
      rewrite Hw. simpl. rewrite He. reflexivity.
    + rewrite (send_one w device _ _ _ Hfit pad 1 tr Hpad) by lia.
      cbv zeta. rewrite Hw. simpl. rewrite He. reflexivity.
    + rewrite (send_one w device _ _ _ Hfit pad 0 tr Hpad) by lia.
      cbv zeta. rewrite Hw. simpl. rewrite He. reflexivity.
  - intros -> Hfirst Hsecond.
    rewrite (send_two w device _ _ _ Hfit "both" tr eq_refl). cbv zeta.
    rewrite Hfirst, Hsecond. cbn [fst snd]. split.
    + simpl. rewrite He. reflexivity.
    + rewrite !writes_of_app. simpl writes_of.
      rewrite writes_of_write_log. simpl. rewrite He. simpl.
      rewrite <- app_assoc. reflexivity.
Qed.

Lemma interrupt_leaves_sender_witness :
  send_haptic_pulse 0%nat "both" 0x8000 0x0032 4000
    (interrupt_write_world 0) [] =
  ([EvWrite 0%nat (main_report 0) (Some KeyboardInterrupt)],
   Raise KeyboardInterrupt) /\
  writes_of (fst (send_haptic_pulse 0%nat "both" 0x8000 0x0032 4000
                    (interrupt_write_world 1) []))
  = [] ++ [main_report 0; main_report 1].
Proof.
  destruct (interrupt_leaves_sender (interrupt_write_world 0) 0%nat "both"
              0x8000 0x0032 4000 [] KeyboardInterrupt) as (Hfirst & _);
    try lia; try reflexivity.
  destruct (interrupt_leaves_sender (interrupt_write_world 1) 0%nat "both"
              0x8000 0x0032 4000 [] KeyboardInterrupt) as (_ & Hsecond);
    try lia; try reflexivity.
  split; [apply Hfirst; reflexivity|].
  apply Hsecond; reflexivity.
Defined.

Section SenderEvents.

Variable device : handle.

Lemma sender_event_write (m : list byte) (r : option exn) :
  Forall (sender_event device) (EvWrite device m r :: write_log r).
Proof.
  constructor; [reflexivity|].
  destruct r as [e|]; simpl; [destruct (is_Exception e)|]; repeat constructor.
Qed.

Lemma write_end_not_running (r : option exn) : write_end r <> Running.
Proof.
  destruct r as [e|]; simpl; [destruct (is_Exception e)|]; discriminate.
Qed.

End SenderEvents.

(** X2: whatever its arguments and whatever the device does, one call of
    the sender only adds to the trace writes to the handle it was given and
    log lines: it opens, closes and creates no handle, enumerates nothing
    and does not sleep. *)
Theorem sender_only_writes_and_logs (w : World) (device : handle)
    (pad : string) (amplitude period count : Z) (tr : trace) :
  exists ext,
    fst (send_haptic_pulse device pad amplitude period count w tr) = tr ++ ext /\
    Forall (sender_event device) ext /\
    (List.length (writes_of ext) <= List.length (pads_of pad))%nat /\
    snd (send_haptic_pulse device pad amplitude period count w tr) <> Running.
Proof.
  destruct (in_u16 amplitude && in_u16 period && in_u16 count) eqn:Hfit.
  - destruct (pads_of_cases pad) as [Hpad|[Hpad|Hpad]]; rewrite Hpad.
    + rewrite (send_two w device _ _ _ Hfit pad tr Hpad). cbv zeta.
      destruct (write_caught _); cbn [fst snd].
      * eexists. rewrite <- app_assoc. split; [reflexivity|].
        split; [apply Forall_app; split; apply sender_event_write|].
        split; [|apply write_end_not_running].
        rewrite writes_of_app. simpl writes_of.
        rewrite !writes_of_write_log. simpl. lia.
      * eexists. split; [reflexivity|].
        split; [apply sender_event_write|].
        split; [|apply write_end_not_running].
        simpl writes_of. rewrite writes_of_write_log. simpl. lia.
    + rewrite (send_one w device _ _ _ Hfit pad 1 tr Hpad) by lia.
      cbn [fst snd]. eexists. split; [reflexivity|].
      split; [apply sender_event_write|].
      split; [|apply write_end_not_running].
      simpl writes_of. rewrite writes_of_write_log. simpl. lia.
    + rewrite (send_one w device _ _ _ Hfit pad 0 tr Hpad) by lia.
      cbn [fst snd]. eexists. split; [reflexivity|].
      split; [apply sender_event_write|].
      split; [|apply write_end_not_running].
      simpl writes_of. rewrite writes_of_write_log. simpl. lia.
  - rewrite (send_out_of_range w device pad _ _ _ tr Hfit). exists [].
    rewrite app_nil_r. repeat split; [constructor | simpl; lia | discriminate].
Qed.

(** X3: two reports are equal only when they were built from the same pad
    id, amplitude, period and count: on values that fit their fields the
    encoder loses nothing. *)
Theorem build_message_injective
    (pad_id amplitude period count pad_id' amplitude' period' count' : Z) :
  0 <= pad_id <= 255 -> 0 <= amplitude <= 0xFFFF ->
  0 <= period <= 0xFFFF -> 0 <= count <= 0xFFFF ->
  0 <= pad_id' <= 255 -> 0 <= amplitude' <= 0xFFFF ->
  0 <= period' <= 0xFFFF -> 0 <= count' <= 0xFFFF ->
  build_message pad_id amplitude period count =
  build_message pad_id' amplitude' period' count' ->
  pad_id = pad_id' /\ amplitude = amplitude' /\ period = period' /\
  count = count'.
Proof.
  intros Hi Ha Hp Hc Hi' Ha' Hp' Hc' Heq.
  rewrite !build_message_eq in Heq by assumption.
  replace (in_u16 amplitude && in_u16 period && in_u16 count) with true in Heq
    by (symmetry; apply fields_fit_iff; tauto).
  replace (in_u16 amplitude' && in_u16 period' && in_u16 count') with true
    in Heq by (symmetry; apply fields_fit_iff; tauto).
  assert (Hm : wire_format pad_id amplitude period count
               = wire_format pad_id' amplitude' period' count')
    by congruence.
  clear Heq.
  destruct (wire_format_fields amplitude period count pad_id Hi Ha Hp Hc)
    as (F2 & F3 & F5 & F7).
  destruct (wire_format_fields amplitude' period' count' pad_id' Hi' Ha' Hp' Hc')
    as (G2 & G3 & G5 & G7).
  cbv zeta in F2, F3, F5, F7, G2, G3, G5, G7. rewrite Hm in F2, F3, F5, F7.
  repeat split; congruence.
Qed.

Lemma build_message_injective_witness :
  1 = 1 /\ 0x8000 = 0x8000 /\ 0x0032 = 0x0032 /\ 4000 = 4000.
Proof.
  apply (build_message_injective 1 0x8000 0x0032 4000 1 0x8000 0x0032 4000);
    try lia; reflexivity.
Defined.

Section Padding.

Lemma concat_repeat_singleton {A} (x : A) (n : nat) :
  List.concat (repeat [x] n) = repeat x n.
Proof. induction n as [|n IH]; [reflexivity|]. simpl. rewrite IH. reflexivity. Qed.

End Padding.

(** X4: the padding of a report only ever adds zero bytes: a message
    shorter than 64 bytes is filled up to 64 with zeros after its own
    bytes, and a message of 64 bytes or more is left as it is, not cut;
    this is the padding [build_message] applies to what [struct.pack]
    returns. *)
Theorem pad_to_64_spec (message : list byte) :
  pad_to_64 message = message ++ repeat x00 (64 - List.length message)%nat /\
  List.length (pad_to_64 message) = Nat.max 64 (List.length message) /\
  ((64 <= List.length message)%nat -> pad_to_64 message = message) /\
  forall pad_id amplitude period count,
    build_message pad_id amplitude period count =
    match Struct.pack "<BBBHHH"
            [HAPTIC_CMD; HAPTIC_SUBCMD; pad_id; amplitude; period; count] with
    | inl e => inl e
    | inr packed => inr (pad_to_64 packed)
    end.
Proof.
  assert (Hpad : pad_to_64 message
                 = message ++ repeat x00 (64 - List.length message)%nat).
  { unfold pad_to_64, bytes_repeat, len. rewrite concat_repeat_singleton.
    do 2 f_equal. lia. }
  split; [exact Hpad|]. split; [|split].
  - rewrite Hpad, length_app, repeat_length. lia.
  - intros Hlong. rewrite Hpad.
    replace (64 - List.length message)%nat with 0%nat by lia.
    apply app_nil_r.
  - reflexivity.
Qed.

Lemma pad_to_64_spec_witness :
  pad_to_64 (repeat xff 70) = repeat xff 70.
Proof.
  destruct (pad_to_64_spec (repeat xff 70)) as (_ & _ & Hlong & _).
  apply Hlong. simpl. lia.
Defined.

(** X5: in any world and after any trace, the locator writes to no
    device, opens and closes none and does not sleep.  It creates at most
    one handle, however many entries are on interface 2: it returns a
    handle exactly when it created one, and that handle is the new one; it
    raises only when the HID library is missing, and then [SystemExit]
    with code 1. *)
Theorem locator_effects (w : World) (tr : trace) :
  exists ext,
    fst (find_steam_deck_controller w tr) = tr ++ ext /\
    writes_of ext = [] /\ opens_of ext = [] /\ closes_of ext = [] /\
    count_sleeps ext = 0%nat /\
    (forall h, snd (find_steam_deck_controller w tr) = Ret (Some h) ->
               h = count_devices tr /\ handles_of ext = [h]) /\
    (snd (find_steam_deck_controller w tr) = Ret None -> handles_of ext = []) /\
    (forall e, snd (find_steam_deck_controller w tr) = Raise e ->
               hid_installed w = false /\ e = SystemExit 1 /\
               handles_of ext = []) /\
    snd (find_steam_deck_controller w tr) <> Running.
Proof.
  destruct (hid_installed w) eqn:Hh.
  - rewrite (find_steam_deck_controller_eq w tr Hh).
    destruct (existsb _ _); cbn [fst snd]; eexists;
      (split; [reflexivity|]); repeat split; try discriminate.
    + congruence.
    + injection H as <-. reflexivity.
  - rewrite (find_steam_deck_controller_without_hid w tr Hh). cbn [fst snd].
    eexists. split; [reflexivity|]. repeat split; try discriminate; congruence.
Qed.

Lemma locator_effects_witness :
  exists ext,
    fst (find_steam_deck_controller two_haptic_world []) = [] ++ ext /\
    handles_of ext = [0%nat].
Proof.
  destruct (locator_effects two_haptic_world [])
    as (ext & Hext & _ & _ & _ & _ & Hsome & _).
  exists ext. split; [exact Hext|].
  apply (Hsome 0%nat). reflexivity.
Defined.

(** * Further properties of the driver *)

Section TurnEvents.

Variable w : World.
Variable device : handle.

Lemma handles_of_app (t1 t2 : trace) :
  handles_of (t1 ++ t2) = handles_of t1 ++ handles_of t2.
Proof. induction t1 as [|[] t1 IH]; simpl; rewrite ?IH; reflexivity. Qed.

Lemma sleeps_of_app (t1 t2 : trace) :
  sleeps_of (t1 ++ t2) = sleeps_of t1 ++ sleeps_of t2.
Proof. induction t1 as [|[] t1 IH]; simpl; rewrite ?IH; reflexivity. Qed.

Lemma turn_event_frame (ext : trace) :
  Forall (turn_event device) ext ->
  forallb is_loop_event ext = true /\
  Forall (fun h => h = device) (handles_of ext) /\
  sleeps_of ext = repeat 2 (count_sleeps ext).
Proof.
  induction 1 as [|e ext He _ (IH1 & IH2 & IH3)]; [repeat split; constructor|].
  destruct e; simpl in He |- *; try contradiction; subst;
    repeat split; try assumption.
  - constructor; [reflexivity | assumption].
  - rewrite IH3. reflexivity.
Qed.

Lemma turn_event_write (m : list byte) (r : option exn) :
  Forall (turn_event device) (EvWrite device m r :: write_log r).
Proof.
  constructor; [reflexivity|].
  destruct r as [e|]; simpl; [destruct (is_Exception e)|]; repeat constructor.
Qed.

(** One turn, in any world: it writes the right pad's report, then unless
    that write escaped the left pad's, then unless that one escaped it
    pauses; it goes on to the next turn only after the two writes and the
    pause. *)
Lemma body_shape (pulse_count : Z) (tr : trace) :
  exists ext,
    fst (main_loop_body device pulse_count w tr) = tr ++ ext /\
    Forall (turn_event device) ext /\
    ((writes_of ext = write_cycle /\ (count_sleeps ext <= 1)%nat) \/
     (writes_of ext = [main_report 0] /\ count_sleeps ext = 0%nat)) /\
    (forall a, snd (main_loop_body device pulse_count w tr) = Ret a ->
               writes_of ext = write_cycle /\ count_sleeps ext = 1%nat).
Proof.
  rewrite main_loop_body_eq. cbv zeta.
  set (r0 := write_outcome w (List.length (writes_of tr))).
  set (r1 := write_outcome w (S (List.length (writes_of tr)))).
  set (rs := sleep_outcome w (count_sleeps tr)).
  destruct (write_caught r0) eqn:H0; [destruct (write_caught r1) eqn:H1|].
  - exists ((EvWrite device (main_report 0) r0 :: write_log r0)
            ++ (EvWrite device (main_report 1) r1 :: write_log r1)
            ++ [EvSleep 2 rs]).
    cbn [fst snd]. split; [rewrite <- !app_assoc; reflexivity|].
    split.
    { repeat (apply Forall_app; split); try apply turn_event_write.
      repeat constructor. }
    assert (Hw : writes_of ((EvWrite device (main_report 0) r0 :: write_log r0)
                            ++ (EvWrite device (main_report 1) r1 :: write_log r1)
                            ++ [EvSleep 2 rs]) = write_cycle).
    { rewrite !writes_of_app. simpl writes_of.
      rewrite !writes_of_write_log. reflexivity. }
    assert (Hs : count_sleeps
                   ((EvWrite device (main_report 0) r0 :: write_log r0)
                    ++ (EvWrite device (main_report 1) r1 :: write_log r1)
                    ++ [EvSleep 2 rs]) = 1%nat).
    { rewrite !count_sleeps_app. simpl count_sleeps.
      rewrite !count_sleeps_write_log. reflexivity. }
    split; [left; split; [exact Hw | lia]|].
    intros a _. split; assumption.
  - exists ((EvWrite device (main_report 0) r0 :: write_log r0)
            ++ (EvWrite device (main_report 1) r1 :: write_log r1)).
    cbn [fst snd]. split; [rewrite <- !app_assoc; reflexivity|].
    split; [apply Forall_app; split; apply turn_event_write|].
    destruct (write_end_not_caught _ H1) as (e & He & _ & _).
    split.
    + left. rewrite !writes_of_app, !count_sleeps_app. simpl.
      rewrite !writes_of_write_log, !count_sleeps_write_log.
      split; [reflexivity | lia].
    + intros a Ha. rewrite He in Ha. discriminate.
  - exists (EvWrite device (main_report 0) r0 :: write_log r0).
    cbn [fst snd]. split; [reflexivity|].
    split; [apply turn_event_write|].
    destruct (write_end_not_caught _ H0) as (e & He & _ & _).
    split.
    + right. simpl. rewrite writes_of_write_log, count_sleeps_write_log.
      split; reflexivity.
    + intros a Ha. rewrite He in Ha. discriminate.
Qed.

(** The loop, in any world: its writes are the beginning of the sequence
    right, left, right, left, ...; each pause follows two writes. *)
Lemma loop_shape (fuel : nat) :
  forall (pulse_count : Z) (tr : trace),
  exists ext,
    fst (@while_true Z unit fuel (main_loop_body device) pulse_count w tr)
    = tr ++ ext /\
    Forall (turn_event device) ext /\
    (exists rest,
        writes_of ext ++ rest = List.concat (repeat write_cycle fuel)) /\
    (2 * count_sleeps ext <= List.length (writes_of ext))%nat /\
    (List.length (writes_of ext) <= 2 * count_sleeps ext + 2)%nat /\
    (count_sleeps ext <= fuel)%nat.
Proof.
  induction fuel as [|fuel IH]; intros pulse_count tr.
  - exists []. simpl. rewrite app_nil_r.
    repeat split; try constructor; try lia. exists []. reflexivity.
  - rewrite while_true_step.
    destruct (body_shape pulse_count tr) as (ext & He & Hev & Hsh & Hret).
    destruct (main_loop_body device pulse_count w tr) as [tr' [pc'|e|]];
      cbn [fst snd] in He, Hret; subst tr'.
    + destruct (Hret pc' eq_refl) as (Hw & Hs).
      destruct (IH pc' (tr ++ ext))
        as (ext' & He' & Hev' & (rest & Hrest) & Hlo & Hhi & Hfu).
      exists (ext ++ ext'). rewrite He', app_assoc.
      split; [reflexivity|].
      split; [apply Forall_app; split; assumption|].
      rewrite writes_of_app, count_sleeps_app, length_app, Hw, Hs.
      split.
      { exists rest. rewrite <- app_assoc, Hrest. reflexivity. }
      simpl List.length. repeat split; lia.
    + exists ext. cbn [fst]. split; [reflexivity|].
      split; [exact Hev|].
      destruct Hsh as [(Hw & Hs)|(Hw & Hs)]; rewrite Hw.
      * split; [exists (List.concat (repeat write_cycle fuel)); reflexivity|].
        simpl List.length. repeat split; lia.
      * split; [exists (main_report 1 :: List.concat (repeat write_cycle fuel));
                reflexivity|].
        simpl List.length. repeat split; lia.
    + exists ext. cbn [fst]. split; [reflexivity|].
      split; [exact Hev|].
      destruct Hsh as [(Hw & Hs)|(Hw & Hs)]; rewrite Hw.
      * split; [exists (List.concat (repeat write_cycle fuel)); reflexivity|].
        simpl List.length. repeat split; lia.
      * split; [exists (main_report 1 :: List.concat (repeat write_cycle fuel));
                reflexivity|].
        simpl List.length. repeat split; lia.
Qed.

End TurnEvents.

Section RunShape.

Variable w : World.
Variable fuel : nat.

Lemma edge_event_frame (device : handle) (ext : trace) :
  Forall (edge_event device) ext ->
  writes_of ext = [] /\ count_sleeps ext = 0%nat /\ sleeps_of ext = [] /\
  Forall (fun h => h = device) (handles_of ext).
Proof.
  induction 1 as [|e ext He _ (IH1 & IH2 & IH3 & IH4)];
    [repeat split; constructor|].
  destruct e; simpl in He |- *; try contradiction; subst;
    repeat split; try assumption; constructor; (reflexivity || assumption).
Qed.

Lemma edge_event_lines (device : handle) (lines : list string) :
  Forall (edge_event device) (map EvPrint lines) /\
  count_devices (map EvPrint lines) = 0%nat.
Proof.
  induction lines as [|l lines (IH1 & IH2)]; [split; constructor|].
  split; [constructor; [exact I | exact IH1] | exact IH2].
Qed.

(** What [main] adds after its try block. *)
Lemma after_try_tail (tr : trace) (o : outcome unit) :
  exists post,
    fst (after_try 0%nat (tr, o)) = tr ++ post /\
    Forall (edge_event 0%nat) post /\ count_devices post = 0%nat.
Proof.
  destruct (after_try_trace 0%nat tr o) as (lines & Htr).
  destruct (edge_event_lines 0%nat lines) as (Hl & Hd).
  exists (map EvPrint lines
          ++ match o with Running => [] | _ => [EvClose 0%nat] end).
  split; [exact Htr|]. rewrite count_devices_app, Hd. split.
  - apply Forall_app. split; [exact Hl|].
    destruct o; repeat constructor.
  - destruct o; reflexivity.
Qed.

(** Any run, in any world: what [main] does before the loop, the turns of
    the loop, what it does after. *)
Lemma run_decomposition :
  exists pre ext post,
    fst (run fuel w) = pre ++ ext ++ post /\
    Forall (edge_event 0%nat) pre /\
    Forall (turn_event 0%nat) ext /\
    Forall (edge_event 0%nat) post /\
    count_devices pre = (if hid_installed w then 1%nat else 0%nat) /\
    count_devices post = 0%nat /\
    (ext <> [] -> is_open 0%nat pre = true) /\
    (exists rest,
        writes_of ext ++ rest = List.concat (repeat write_cycle fuel)) /\
    (2 * count_sleeps ext <= List.length (writes_of ext))%nat /\
    (List.length (writes_of ext) <= 2 * count_sleeps ext + 2)%nat /\
    (count_sleeps ext <= fuel)%nat.
Proof.
  destruct (hid_installed w) eqn:Hh; [destruct (open_outcome w) as [e|] eqn:Ho|].
  - rewrite (run_open_raised w fuel e Hh Ho).
    destruct (after_try_tail
                (banner ++ [EvDevice 0%nat;
                            EvOpen 0%nat VALVE_VENDOR_ID STEAM_DECK_PRODUCT_ID
                              (Some e)]) (Raise e))
      as (post & Hpost & Hev & Hd).
    eexists _, [], post. split; [exact Hpost|].
    split; [repeat constructor|]. split; [constructor|].
    split; [exact Hev|]. split; [reflexivity|]. split; [exact Hd|].
    split; [intros Hne; contradiction|].
    split; [eexists; reflexivity|]. simpl. repeat split; lia.
  - rewrite (run_open_ok w fuel Hh Ho).
    destruct (loop_shape w 0%nat fuel 0 connected)
      as (ext & He & Hev & Hpre & Hlo & Hhi & Hfu).
    destruct (while_true fuel (main_loop_body 0%nat) 0 w connected)
      as [tr o]. cbn [fst] in He. subst tr.
    destruct (after_try_tail (connected ++ ext) o) as (post & Hpost & Hevp & Hd).
    exists connected, ext, post. rewrite Hpost, <- app_assoc.
    split; [reflexivity|]. split; [repeat constructor|].
    split; [exact Hev|]. split; [exact Hevp|]. split; [reflexivity|].
    split; [exact Hd|]. split; [reflexivity|].
    repeat split; assumption.
  - rewrite (run_without_hid w fuel Hh). cbn [fst].
    eexists _, [], []. rewrite !app_nil_r. split; [reflexivity|].
    split; [repeat constructor|]. split; [constructor|].
    split; [constructor|]. split; [reflexivity|]. split; [reflexivity|].
    split; [intros Hne; contradiction|].
    split; [eexists; reflexivity|]. simpl. repeat split; lia.
Qed.

End RunShape.

(** X6: in any world, however a run goes and ends, what it writes to the
    device is a beginning of the sequence right report, left report, right
    report, left report, ... of as many turns as the run is followed for:
    nothing else is ever written, and no report is written twice in a row
    or out of turn. *)
Theorem writes_alternate (w : World) (fuel : nat) :
  exists rest,
    writes_of (fst (run fuel w)) ++ rest
    = List.concat (repeat write_cycle fuel).
Proof.
  destruct (run_decomposition w fuel)
    as (pre & ext & post & Hrun & Hpre & _ & Hpost & _ & _ & _ & Hrest & _).
  destruct (edge_event_frame 0%nat pre Hpre) as (Hw1 & _).
  destruct (edge_event_frame 0%nat post Hpost) as (Hw2 & _).
  rewrite Hrun, !writes_of_app, Hw1, Hw2, app_nil_r. exact Hrest.
Qed.

(** X7: in any world, at any point a run has made two writes for each of
    its pauses and at most two more, every pause is asked for 2 seconds,
    and there is at most one pause per turn. *)
Theorem two_writes_per_pause (w : World) (fuel : nat) :
  (2 * count_sleeps (fst (run fuel w))
   <= List.length (writes_of (fst (run fuel w))))%nat /\
  (List.length (writes_of (fst (run fuel w)))
   <= 2 * count_sleeps (fst (run fuel w)) + 2)%nat /\
  (count_sleeps (fst (run fuel w)) <= fuel)%nat /\
  sleeps_of (fst (run fuel w)) = repeat 2 (count_sleeps (fst (run fuel w))).
Proof.
  destruct (run_decomposition w fuel)
    as (pre & ext & post & Hrun & Hpre & Hext & Hpost & _ & _ & _ & _
        & Hlo & Hhi & Hfu).
  destruct (edge_event_frame 0%nat pre Hpre) as (Hw1 & Hc1 & Hs1 & _).
  destruct (edge_event_frame 0%nat post Hpost) as (Hw2 & Hc2 & Hs2 & _).
  destruct (turn_event_frame 0%nat ext Hext) as (_ & _ & Hs).
  rewrite Hrun, !writes_of_app, !count_sleeps_app, !sleeps_of_app.
  rewrite Hw1, Hw2, Hc1, Hc2, Hs1, Hs2, Hs, !app_nil_r, Nat.add_0_r.
  simpl. repeat split; assumption.
Qed.

(** X8: a run uses one handle.  It creates exactly one when the HID
    library is installed and none when it is not, and every open, write
    and close it makes is on that handle. *)
Theorem one_handle (w : World) (fuel : nat) :
  count_devices (fst (run fuel w))
  = (if hid_installed w then 1%nat else 0%nat) /\
  Forall (fun h => h = 0%nat) (handles_of (fst (run fuel w))).
Proof.
  destruct (run_decomposition w fuel)
    as (pre & ext & post & Hrun & Hpre & Hext & Hpost & Hd1 & Hd2 & _).
  destruct (edge_event_frame 0%nat pre Hpre) as (_ & _ & _ & Hh1).
  destruct (edge_event_frame 0%nat post Hpost) as (_ & _ & _ & Hh2).
  destruct (turn_event_frame 0%nat ext Hext) as (Hl & Hh & _).
  destruct (loop_events_frame ext Hl) as (_ & _ & _ & Hd & _).
  rewrite Hrun, !count_devices_app, !handles_of_app, Hd1, Hd2, Hd.
  split; [lia|]. repeat (apply Forall_app; split); assumption.
Qed.

Section WritesWhileOpen.

Lemma writes_while_open_nil : writes_while_open [].
Proof. intros [|x t1] h m r t2 H; discriminate. Qed.

Lemma writes_while_open_snoc (tr : trace) (e : event) :
  writes_while_open tr ->
  match e with EvWrite h _ _ => is_open h tr = true | _ => True end ->
  writes_while_open (tr ++ [e]).
Proof.
  intros Htr He t1 h m r t2 Heq.
  destruct t2 as [|x t2 _] using rev_ind.
  - apply app_inj_tail in Heq. destruct Heq as (-> & ->). exact He.
  - change (t1 ++ EvWrite h m r :: t2 ++ [x])
      with (t1 ++ (EvWrite h m r :: t2) ++ [x]) in Heq.
    rewrite app_assoc in Heq. apply app_inj_tail in Heq.
    destruct Heq as (Heq & _). apply (Htr t1 h m r t2 Heq).
Qed.

Lemma writes_while_open_edge (device : handle) (ext : trace) :
  Forall (edge_event device) ext ->
  forall tr, writes_while_open tr -> writes_while_open (tr ++ ext).
Proof.
  induction 1 as [|e ext He _ IH]; intros tr Htr.
  - rewrite app_nil_r. exact Htr.
  - change (e :: ext) with ([e] ++ ext). rewrite app_assoc. apply IH.
    apply writes_while_open_snoc; [exact Htr|].
    destruct e; simpl in He; try contradiction; exact I.
Qed.

Lemma writes_while_open_turns (device : handle) (ext : trace) :
  Forall (turn_event device) ext ->
  forall tr, is_open device tr = true -> writes_while_open tr ->
             writes_while_open (tr ++ ext).
Proof.
  induction 1 as [|e ext He _ IH]; intros tr Hopen Htr.
  - rewrite app_nil_r. exact Htr.
  - change (e :: ext) with ([e] ++ ext). rewrite app_assoc. apply IH.
    + unfold is_open in *. rewrite is_open_from_app, Hopen.
      destruct e; simpl in He; try contradiction; reflexivity.
    + apply writes_while_open_snoc; [exact Htr|].
      destruct e; simpl in He; try contradiction; subst; try exact I.
      exact Hopen.
Qed.

End WritesWhileOpen.

(** X9: in any world, every write of a run is made to a handle that is open
    at that point: never before the open has succeeded and never after the
    close. *)
Theorem never_writes_unopened (w : World) (fuel : nat) :
  forall t1 h m r t2,
    fst (run fuel w) = t1 ++ EvWrite h m r :: t2 -> is_open h t1 = true.
Proof.
  destruct (run_decomposition w fuel)
    as (pre & ext & post & Hrun & Hpre & Hext & Hpost & _ & _ & Hopen & _).
  fold (writes_while_open (fst (run fuel w))). rewrite Hrun, app_assoc.
  apply (writes_while_open_edge 0%nat post Hpost).
  assert (Hp : writes_while_open pre).
  { apply (writes_while_open_edge 0%nat pre Hpre []), writes_while_open_nil. }
  destruct ext as [|e ext]; [rewrite app_nil_r; exact Hp|].
  apply (writes_while_open_turns 0%nat _ Hext); [|exact Hp].
  apply Hopen. discriminate.
Qed.

Lemma never_writes_unopened_witness :
  is_open 0%nat (connected ++ [EvWrite 0%nat (main_report 0) None]) = true.
Proof.
  apply (never_writes_unopened quiet_world 1 _ 0%nat (main_report 1) None
           [EvSleep 2 None]).
  reflexivity.
Defined.

(** X10: with the HID library installed, [main] returns normally exactly
    when one of its calls to the device or the clock was interrupted by
    the user: it has no other way to return. *)
Theorem returns_iff_interrupted (w : World) (fuel : nat) :
  hid_installed w = true ->
  (snd (run fuel w) = Ret tt <-> interrupted (fst (run fuel w)) = true).
Proof.
  intros Hh.
  destruct (try_block w fuel Hh) as (tr & o & Hrun & Hnr & Hi & _).
  rewrite Hrun, after_try_end.
  destruct (after_try_trace 0%nat tr o) as (lines & Htr).
  destruct (lines_frame lines) as (_ & _ & _ & _ & _ & Hl & _).
  rewrite Htr, !interrupted_app, Hl, Hi.
  destruct o as [a|e|].
  - exfalso. apply (Hnr a). reflexivity.
  - destruct e; simpl; split; intros H; congruence.
  - simpl. split; intros H; discriminate.
Qed.

Lemma returns_iff_interrupted_witness :
  snd (run 3 (interrupt_write_world 2)) = Ret tt.
Proof.
  apply (returns_iff_interrupted (interrupt_write_world 2) 3); reflexivity.
Defined.

(** X11: when [device.open] raises, whatever it raises, the run makes no
    write and no pause, never prints that it is connected, and closes the
    handle once.  An [OSError] becomes [SystemExit] with code 1, a
    [KeyboardInterrupt] makes [main] return, and any other exception leaves
    [main] as it is, after the close. *)
Theorem open_exception_paths (w : World) (fuel : nat) (e : exn) :
  hid_installed w = true -> open_outcome w = Some e ->
  writes_of (fst (run fuel w)) = [] /\
  count_sleeps (fst (run fuel w)) = 0%nat /\
  closes_of (fst (run fuel w)) = [0%nat] /\
  ~ In "Connected to Steam Deck controller" (prints_of (fst (run fuel w))) /\
  snd (run fuel w) =
  (if is_OSError e then Raise (SystemExit 1)
   else if is_KeyboardInterrupt e then Ret tt
   else Raise e).
Proof.
  intros Hh Ho. rewrite (run_open_raised w fuel e Hh Ho).
  rewrite after_try_end.
  split; [destruct e; reflexivity|]. split; [destruct e; reflexivity|].
  split; [destruct e; reflexivity|]. split; [|reflexivity].
  destruct e; simpl; intros H;
    repeat (destruct H as [H|H]; [discriminate H|]); exact H.
Qed.

Lemma open_exception_paths_witness :
  closes_of (fst (run 4 open_value_error_world)) = [0%nat] /\
  snd (run 4 open_value_error_world) = Raise (OtherException "already open").
Proof.
  destruct (open_exception_paths open_value_error_world 4
              (OtherException "already open") eq_refl eq_refl)
    as (_ & _ & Hclose & _ & Hend).
  split; assumption.
Defined.

Section InterruptedWrite.

Variable w : World.
Variable device : handle.

(** After [n] turns without an interrupt, a write of the next turn raises
    an exception the sender does not catch: the loop ends with it, after
    that write. *)
Lemma loop_interrupted_in_write (n m : nat) (pulse_count : Z) (tr : trace)
    (e : exn) :
  (forall i, (i < 2 * n)%nat ->
     write_caught (write_outcome w (List.length (writes_of tr) + i)) = true) ->
  (forall i, (i < n)%nat -> sleep_outcome w (count_sleeps tr + i) = None) ->
  is_Exception e = false ->
  let k := (List.length (writes_of tr) + 2 * n)%nat in
  let turns := turns_events w device (List.length (writes_of tr))
                 (count_sleeps tr) n in
  (write_outcome w k = Some e ->
   @while_true Z unit (n + S m) (main_loop_body device) pulse_count w tr =
   (tr ++ turns ++ [EvWrite device (main_report 0) (Some e)], Raise e)) /\
  (write_caught (write_outcome w k) = true ->
   write_outcome w (S k) = Some e ->
   @while_true Z unit (n + S m) (main_loop_body device) pulse_count w tr =
   (tr ++ turns
       ++ (EvWrite device (main_report 0) (write_outcome w k)
             :: write_log (write_outcome w k))
       ++ [EvWrite device (main_report 1) (Some e)],
    Raise e)).
Proof.
  intros Hw Hs He k turns.
  assert (Hk : List.length (writes_of (tr ++ turns)) = k).
  { unfold turns, k. rewrite writes_of_app, writes_of_turns, length_app,
      length_cycles. reflexivity. }
  split.
  - intros Hfirst. rewrite loop_turns by assumption. fold turns.
    rewrite while_true_step, main_loop_body_eq. cbv zeta.
    rewrite Hk, Hfirst. simpl write_caught. rewrite He. simpl write_log.
    rewrite He. rewrite <- app_assoc. reflexivity.
  - intros Hfirst Hsecond. rewrite loop_turns by assumption. fold turns.
    rewrite while_true_step, main_loop_body_eq. cbv zeta.
    rewrite Hk, Hfirst, Hsecond. simpl write_caught. rewrite He.
    simpl write_log. rewrite He. rewrite <- !app_assoc. reflexivity.
Qed.


End InterruptedWrite.

(** X12: the user's interrupt arrives in a write, after [n] turns without
    one.  The run ends with exit status 0 and the handle closed once; the
    interrupted write is its last write, so the trace holds the [n] write
    cycles and the right pad's report alone when the first write of the
    turn is interrupted, and [n + 1] write cycles when the second is; the
    turn's pause is not made. *)
Theorem interrupt_in_write (w : World) (fuel n : nat) :
  hid_installed w = true -> open_outcome w = None ->
  (forall k, (k < 2 * n)%nat -> write_caught (write_outcome w k) = true) ->
  (forall i, (i < n)%nat -> sleep_outcome w i = None) ->
  (n < fuel)%nat ->
  (write_outcome w (2 * n) = Some KeyboardInterrupt ->
   exit_status (snd (run fuel w)) = Some 0 /\
   writes_of (fst (run fuel w))
   = List.concat (repeat write_cycle n) ++ [main_report 0] /\
   count_sleeps (fst (run fuel w)) = n /\
   closes_of (fst (run fuel w)) = [0%nat]) /\
  (write_caught (write_outcome w (2 * n)) = true ->
   write_outcome w (S (2 * n)) = Some KeyboardInterrupt ->
   exit_status (snd (run fuel w)) = Some 0 /\
   writes_of (fst (run fuel w)) = List.concat (repeat write_cycle (S n)) /\
   count_sleeps (fst (run fuel w)) = n /\
   closes_of (fst (run fuel w)) = [0%nat]).
Proof.
  intros Hh Ho Hw Hs Hfuel.
  rewrite (run_open_ok w fuel Hh Ho).
  replace fuel with (n + S (fuel - S n))%nat by lia.
  destruct (loop_interrupted_in_write w 0%nat n (fuel - S n) 0 connected
              KeyboardInterrupt Hw Hs eq_refl) as (Hfirst & Hsecond).
  cbv zeta in Hfirst, Hsecond.
  change (List.length (writes_of connected) + 2 * n)%nat with (2 * n)%nat
    in Hfirst, Hsecond.
  change (turns_events w 0%nat (List.length (writes_of connected))
            (count_sleeps connected) n)
    with (turns_events w 0%nat 0 0 n) in Hfirst, Hsecond.
  destruct (loop_events_frame _ (loop_events_turns w 0%nat 0 0 n))
    as (Hcl & _).
  split.
  - intros H0. rewrite (Hfirst H0). unfold after_try.
    cbn [is_OSError is_KeyboardInterrupt fst snd exit_status].
    split; [reflexivity|].
    rewrite !writes_of_app, !count_sleeps_app, !closes_of_app.
    change (writes_of connected) with (@nil (list byte)).
    change (count_sleeps connected) with 0%nat.
    change (closes_of connected) with (@nil handle).
    rewrite writes_of_turns, count_sleeps_turns, Hcl. simpl.
    rewrite app_nil_r. repeat split. lia.
  - intros H0 H1. rewrite (Hsecond H0 H1). unfold after_try.
    cbn [is_OSError is_KeyboardInterrupt fst snd exit_status].
    split; [reflexivity|].
    rewrite !writes_of_app, !count_sleeps_app, !closes_of_app.
    change (writes_of connected) with (@nil (list byte)).
    change (count_sleeps connected) with 0%nat.
    change (closes_of connected) with (@nil handle).
    rewrite writes_of_turns, count_sleeps_turns, Hcl.
    simpl writes_of. rewrite writes_of_write_log.
    simpl count_sleeps. rewrite count_sleeps_write_log.
    assert (Hlog : forall r, closes_of (write_log r) = []).
    { intros [x|]; simpl; [destruct (is_Exception x)|]; reflexivity. }
    simpl closes_of. rewrite Hlog. simpl.
    split; [|split; [lia | reflexivity]].
    clear. induction n as [|n' IH]; [reflexivity|].
    simpl. rewrite IH. reflexivity.
Qed.

Lemma interrupt_in_write_witness :
  (exit_status (snd (run 5 (interrupt_write_world 4))) = Some 0 /\
   writes_of (fst (run 5 (interrupt_write_world 4)))
   = List.concat (repeat write_cycle 2) ++ [main_report 0] /\
   count_sleeps (fst (run 5 (interrupt_write_world 4))) = 2%nat /\
   closes_of (fst (run 5 (interrupt_write_world 4))) = [0%nat]) /\
  (exit_status (snd (run 5 (interrupt_write_world 3))) = Some 0 /\
   writes_of (fst (run 5 (interrupt_write_world 3)))
   = List.concat (repeat write_cycle 2) /\
   count_sleeps (fst (run 5 (interrupt_write_world 3))) = 1%nat /\
   closes_of (fst (run 5 (interrupt_write_world 3))) = [0%nat]).
Proof.
  split.
  - apply (interrupt_in_write (interrupt_write_world 4) 5 2);
      try reflexivity; try lia.
    intros k Hk. do 4 (destruct k as [|k]; [reflexivity|]). lia.
  - apply (interrupt_in_write (interrupt_write_world 3) 5 1);
      try reflexivity; try lia.
    intros k Hk. do 2 (destruct k as [|k]; [reflexivity|]). lia.
Defined.


